(** * Room reservation backend: slot state machine and booking protocol

    A shallow embedding of the Express/MySQL backend ([src/lib/app.js],
    with the earlier single-statement variant of the slot
    materialisation kept in [src/unnamed/part_000]) and the properties
    of its slot-state machine.

    Conventions of the embedding:
    - the three tables the handlers touch ([rooms], [room_availability],
      [bookings]) are lists of rows, in insertion order;
    - every [con.query] is one atomic store call; a store call either
      runs or reports [err] and changes nothing.  Which calls report
      [err] is chosen by the environment: a handler takes a fault
      oracle [faults], and its store call number [k], counted from 0
      in the order of the source, fails when [f k] is [true];
    - the wall clock read by [new Date()], [Date.now()] and [NOW()] is
      an explicit [clock] argument, read once per request;
    - SQL string comparison is modelled as exact equality (the
      collation of the schema is not part of the sources), and a date
      is the string of its day;
    - the fields of a request body are strings.  In the book route,
      whose guard tests the fields for truthiness, the empty string
      stands for a missing field as well; the decide route is
      modelled for a status that is a string, the only case in which
      its [status.toLowerCase()] returns. *)

From Stdlib Require Import String Ascii List Bool Arith ZArith Lia DecimalString.
From Stdlib Require Import Sorted Permutation.
From Stdlib Require OrderedTypeEx.
Import ListNotations.
Open Scope string_scope.

(* ================================================================== *)
(** * Part I: definitions *)
(* ================================================================== *)

(** ** JavaScript string primitives used by the handlers *)

Module JS.

(** [s.endsWith(suffix)]: some tail of [s] is [suffix]. *)
Fixpoint endsWith (s suffix : string) : bool :=
  (s =? suffix) ||
  match s with
  | EmptyString => false
  | String _ rest => endsWith rest suffix
  end.

(** [c.toLowerCase()] on one code unit; only the ASCII letters move,
    every other byte is kept. *)
Definition lowerChar (c : ascii) : ascii :=
  let n := nat_of_ascii c in
  if (65 <=? n)%nat && (n <=? 90)%nat then ascii_of_nat (n + 32) else c.

Fixpoint toLowerCase (s : string) : string :=
  match s with
  | EmptyString => EmptyString
  | String c rest => String (lowerChar c) (toLowerCase rest)
  end.

(** [s.split(sep)] for a one-character separator: the pieces between
    the separators, never an empty array. *)
Fixpoint split (sep : ascii) (s : string) : list string :=
  match s with
  | EmptyString => [EmptyString]
  | String c rest =>
      if Ascii.eqb c sep then EmptyString :: split sep rest
      else match split sep rest with
           | [] => [String c EmptyString]
           | piece :: pieces => String c piece :: pieces
           end
  end.

(** White space skipped by [parseInt] (the ASCII part of it). *)
Definition isWhite (c : ascii) : bool :=
  let n := nat_of_ascii c in
  (n =? 32)%nat || ((9 <=? n)%nat && (n <=? 13)%nat).

Fixpoint trimStart (s : string) : string :=
  match s with
  | String c rest => if isWhite c then trimStart rest else s
  | EmptyString => EmptyString
  end.

(** Value of a digit in the given radix (10 or 16), if it is one. *)
Definition digitValue (radix : Z) (c : ascii) : option Z :=
  let n := Z.of_nat (nat_of_ascii c) in
  let v := (if (48 <=? n) && (n <=? 57) then Some (n - 48)
            else if (97 <=? n) && (n <=? 102) then Some (n - 87)
            else if (65 <=? n) && (n <=? 70) then Some (n - 55)
            else None)%Z in
  match v with
  | Some d => if (d <? radix)%Z then Some d else None
  | None => None
  end.

(** The longest prefix of digits, accumulated left to right; [None]
    when there is no digit at all. *)
Fixpoint digits (radix : Z) (acc : option Z) (s : string) : option Z :=
  match s with
  | EmptyString => acc
  | String c rest =>
      match digitValue radix c with
      | Some d =>
          digits radix
            (Some (match acc with Some a => a * radix + d | None => d end)%Z)
            rest
      | None => acc
      end
  end.

(** [parseInt(s)] without a radix argument; [None] is [NaN]. *)
Definition parseInt (s : string) : option Z :=
  let s1 := trimStart s in
  let '(sign, s2) :=
    match s1 with
    | String "-" rest => ((-1)%Z, rest)
    | String "+" rest => (1%Z, rest)
    | _ => (1%Z, s1)
    end in
  let '(radix, s3) :=
    match s2 with
    | String "0" (String "x" rest) => (16%Z, rest)
    | String "0" (String "X" rest) => (16%Z, rest)
    | _ => (10%Z, s2)
    end in
  match digits radix None s3 with
  | Some v => Some (sign * v)%Z
  | None => None
  end.

(** A string is truthy when it is not empty. *)
Definition truthy (s : string) : bool :=
  match s with EmptyString => false | _ => true end.

(** ['' + n] for an integer [n]. *)
Definition ofInt (n : Z) : string := NilZero.string_of_int (Z.to_int n).

End JS.

(** ** The clock

    One reading of the wall clock, as the handlers use it. *)

Record clock := Clock {
  clk_today : string;          (* new Date().toISOString().split('T')[0] *)
  clk_tomorrow : string;       (* the same, one day ahead (UTC) *)
  clk_tomorrowLocal : string;  (* toLocaleDateString('en-CA'), one day ahead *)
  clk_localTime : Z;           (* local time value of now, in ms *)
  clk_now : Z                  (* Date.now() and NOW() *)
}.

Definition msPerDay : Z := 86400000.
Definition msPerHour : Z := 3600000.
Definition msPerMinute : Z := 60000.

(** [isTimeSlotValid]: the label has the shape [start-end], and the
    end of the slot, taken as hours and minutes of the current local
    day, is still ahead.  [setHours(h, m, 0, 0)] is the start of the
    local day plus [h] hours and [m] minutes; a field that does not
    parse gives an invalid date, and every comparison with it is
    false.  Numbers are exact integers here: the rounding of doubles
    and the range of [Date] play no part for hours and minutes of a
    day, and a day has 24 hours (no change of the local offset). *)
Definition isTimeSlotValid (clk : clock) (timeSlot : string) : bool :=
  match JS.split "-" timeSlot with
  | [_startTime; endTime] =>
      match JS.split ":" endTime with
      | endHour :: endMinute :: _ =>
          match JS.parseInt endHour, JS.parseInt endMinute with
          | Some h, Some m =>
              let dayStart := (clk_localTime clk / msPerDay * msPerDay)%Z in
              let slotEnd := (dayStart + h * msPerHour + m * msPerMinute)%Z in
              (clk_localTime clk <? slotEnd)%Z
          | _, _ => false
          end
      | _ => false
      end
  | _ => false
  end.

(** ** Login: the user type derived from the email *)

Definition userType (email : string) : string :=
  if JS.endsWith email "@mfu.th" then "staff"
  else if JS.endsWith email "@mfu.ac.th" then "lecturer"
  else "student".

(** ** Tables

    The columns are those the statements of the handlers name.  The
    table declarations are not part of the sources: nullable columns
    are the ones some statement writes [NULL] to or tests with
    [IS NULL]; the creation timestamp of a booking is filled by the
    store and never written by a handler, so it is left out. *)

Inductive slot_status := free | pending | reserved | disabled.

Definition status_eqb (a b : slot_status) : bool :=
  match a, b with
  | free, free | pending, pending | reserved, reserved | disabled, disabled => true
  | _, _ => false
  end.

Record room := Room {
  r_id : string;
  r_name : option string;
  r_category : option string;
  r_location : option string;
  r_description : option string;
  r_image_url : string;
  r_is_disabled : Z
}.

Record availability := Availability {
  ra_time_slot : string;
  ra_status : slot_status;
  ra_room_id : string;
  ra_availability_date : string;
  ra_student_id : option string;
  ra_booking_id : option string
}.

Record booking := Booking {
  b_id : string;
  b_student_id : string;
  b_room_id : string;
  b_booking_date : string;
  b_time_slot : string;
  b_status : string;
  b_approved_by : option string;
  b_approved_at : option Z
}.

Record db := Db {
  rooms : list room;
  room_availability : list availability;
  bookings : list booking
}.

Definition with_rooms (rs : list room) (d : db) : db :=
  Db rs (room_availability d) (bookings d).
Definition with_availability (ras : list availability) (d : db) : db :=
  Db (rooms d) ras (bookings d).
Definition with_bookings (bs : list booking) (d : db) : db :=
  Db (rooms d) (room_availability d) bs.

Definition set_is_disabled (v : Z) (r : room) : room :=
  Room (r_id r) (r_name r) (r_category r) (r_location r) (r_description r)
       (r_image_url r) v.

Definition set_status (st : slot_status) (r : availability) : availability :=
  Availability (ra_time_slot r) st (ra_room_id r) (ra_availability_date r)
               (ra_student_id r) (ra_booking_id r).

(** ** Store calls and responses *)

(** The fault oracle of one request: store call number [k] of the
    handler reports [err] when [f k] holds. *)
Definition faults := nat -> bool.

Definition no_faults : faults := fun _ => false.

(** What a handler sends: [res.status(code).json({ error })] or one of
    the success bodies. *)
Inductive response :=
| Error (code : nat) (error : string)
| Success
| SuccessMessage (message : string)
| BookingCreated (bookingId : string)
| SlotsAffected (message : string) (affectedSlots : nat)
| RoomCreated (roomId : string)
| Slots (rows : list availability).

(** [UPDATE t SET ... WHERE cond]: the rows that satisfy [cond] are
    rewritten, the others kept, the order of the table unchanged. *)
Definition update {A : Type} (cond : A -> bool) (set : A -> A) (t : list A) : list A :=
  map (fun row => if cond row then set row else row) t.

(** [DELETE FROM t WHERE cond]. *)
Definition delete {A : Type} (cond : A -> bool) (t : list A) : list A :=
  filter (fun row => negb (cond row)) t.

(** [room_id = ? AND availability_date = ?]. *)
Definition of_room_date (roomId date : string) (r : availability) : bool :=
  (ra_room_id r =? roomId) && (ra_availability_date r =? date).

(** [room_id = ? AND availability_date = ? AND time_slot = ?]. *)
Definition of_slot (roomId date timeSlot : string) (r : availability) : bool :=
  of_room_date roomId date r && (ra_time_slot r =? timeSlot).

(** [student_id = ?]: never true of [NULL]. *)
Definition student_is (studentId : string) (r : availability) : bool :=
  match ra_student_id r with
  | Some s => s =? studentId
  | None => false
  end.

(** [student_id IS NULL OR student_id = '']. *)
Definition unbound (r : availability) : bool :=
  match ra_student_id r with
  | Some s => s =? ""
  | None => true
  end.

(** [ORDER BY time_slot]: a stable insertion sort on the label. *)
Fixpoint insert_by_time_slot (r : availability) (t : list availability) : list availability :=
  match t with
  | [] => [r]
  | r' :: rest =>
      if (ra_time_slot r <=? ra_time_slot r')%string then r :: t
      else r' :: insert_by_time_slot r rest
  end.

Definition order_by_time_slot (t : list availability) : list availability :=
  fold_right insert_by_time_slot [] t.

(** Modelled from the spec: the unique key of [room_availability],
    whose table declaration is not in the sources ("Slot (uniquely
    identified by the triple room x date x time-slot-label)").  An
    [INSERT IGNORE] of a row whose triple is present adds nothing; a
    plain [INSERT] of such a row reports an error and adds nothing. *)
Definition insert_slot (timeSlot roomId date : string) (t : list availability) : list availability :=
  if existsb (of_slot roomId date timeSlot) t then t
  else t ++ [Availability timeSlot free roomId date None None].

Definition timeSlots : list string :=
  ["08:00-10:00"; "10:00-12:00"; "13:00-15:00"; "15:00-17:00"].

(** ** The daily reset *)

Definition resetSql (tomorrowStr : string) (t : list availability) : list availability :=
  update
    (fun r => (ra_availability_date r =? tomorrowStr) &&
              (status_eqb (ra_status r) pending || status_eqb (ra_status r) reserved))
    (fun r => Availability (ra_time_slot r) free (ra_room_id r)
                           (ra_availability_date r) None None)
    t.

(** [resetRoomStatuses]: one store call; its error is only logged. *)
Definition resetRoomStatuses (f : faults) (clk : clock) (d : db) : db :=
  let tomorrowStr := clk_tomorrowLocal clk in
  if f 0%nat then d
  else with_availability (resetSql tomorrowStr (room_availability d)) d.

(** ** GET /api/rooms/:roomId/time-slots *)

Module GetTimeSlots.

Definition sql (roomId today : string) (t : list availability) : list availability :=
  order_by_time_slot (filter (of_room_date roomId today) t).

Definition insertSql := insert_slot.

(** The [forEach] over the labels still open: the insert of label
    number [i] is store call [k + i]; returns the table and the
    number of inserts that failed. *)
Fixpoint insertAll (f : faults) (k : nat) (roomId today : string)
         (labels : list string) (t : list availability) : list availability * nat :=
  match labels with
  | [] => (t, 0%nat)
  | slot :: rest =>
      if f k then
        let '(t', errors) := insertAll f (S k) roomId today rest t in
        (t', S errors)
      else insertAll f (S k) roomId today rest (insertSql slot roomId today t)
  end.

Definition handler (f : faults) (clk : clock) (roomId : string) (d : db) : db * response :=
  let today := clk_today clk in
  if f 0%nat then (d, Error 500 "Server error")
  else
    let results := sql roomId today (room_availability d) in
    let validSlots := filter (fun slot => isTimeSlotValid clk (ra_time_slot slot)) results in
    match validSlots with
    | _ :: _ => (d, Slots validSlots)
    | [] =>
        let validTimeSlots := filter (isTimeSlotValid clk) timeSlots in
        match validTimeSlots with
        | [] => (d, Slots [])
        | _ :: _ =>
            let '(t, insertionErrors) :=
              insertAll f 1 roomId today validTimeSlots (room_availability d) in
            let d' := with_availability t d in
            if (0 <? insertionErrors)%nat
            then (d', Error 500 "Failed to initialize time slots")
            else if f (S (length validTimeSlots))
            then (d', Error 500 "Server error")
            else (d', Slots (filter (fun s => isTimeSlotValid clk (ra_time_slot s))
                                    (sql roomId today t)))
        end
    end.

End GetTimeSlots.

(** The same route in [src/unnamed/part_000]: no filter on the hour,
    and the four default rows go into one multi-row [INSERT IGNORE]. *)
Module GetTimeSlotsSingle.

Definition sql := GetTimeSlots.sql.

Definition insertSql (roomId today : string) (t : list availability) : list availability :=
  fold_left (fun acc slot => insert_slot slot roomId today acc) timeSlots t.

Definition handler (f : faults) (clk : clock) (roomId : string) (d : db) : db * response :=
  let today := clk_today clk in
  if f 0%nat then (d, Error 500 "Server error")
  else
    match sql roomId today (room_availability d) with
    | (_ :: _) as results => (d, Slots results)
    | [] =>
        if f 1%nat then (d, Error 500 "Failed to create time slots")
        else
          let d' := with_availability (insertSql roomId today (room_availability d)) d in
          if f 2%nat then (d', Error 500 "Server error")
          else (d', Slots (sql roomId today (room_availability d')))
    end.

End GetTimeSlotsSingle.

(** ** POST /api/bookings *)

Module PostBookings.

Definition checkSql (studentId today : string) (t : list booking) : list booking :=
  filter (fun b => (b_student_id b =? studentId) && (b_booking_date b =? today)) t.

Definition slotCheckSql (roomId today timeSlot : string) (t : list availability) :=
  filter (fun r => of_slot roomId today timeSlot r &&
                   status_eqb (ra_status r) free && unbound r) t.

Definition statusCheckSql (roomId today timeSlot : string) (t : list availability) :=
  filter (of_slot roomId today timeSlot) t.

Definition bookingSql (bookingId studentId roomId today timeSlot : string)
           (t : list booking) : list booking :=
  t ++ [Booking bookingId studentId roomId today timeSlot "Pending" None None].

Definition updateSql (studentId roomId today timeSlot : string)
           (t : list availability) : list availability :=
  update (of_slot roomId today timeSlot)
         (fun r => Availability (ra_time_slot r) pending (ra_room_id r)
                                (ra_availability_date r) (Some studentId)
                                (ra_booking_id r))
         t.

Definition rollbackSql (bookingId : string) (t : list booking) : list booking :=
  delete (fun b => b_id b =? bookingId) t.

(** The message of a rejection, from the first row of the status
    check. *)
Definition errorMessage (slotStatus : availability) : string :=
  match ra_status slotStatus with
  | pending => "Time slot is already pending approval"
  | reserved => "Time slot is already reserved"
  | _ =>
      match ra_student_id slotStatus with
      | Some s => if JS.truthy s then "Time slot is already booked by another student"
                  else "Time slot not available"
      | None => "Time slot not available"
      end
  end.

(** The handler, run without any other request in between.  Store
    calls, in the order of the source: 0 daily check, 1 slot check,
    2 status check, 3 insert of the booking, 4 update of the slot,
    5 rollback. *)
Definition handler (f : faults) (clk : clock) (studentId roomId timeSlot : string)
           (d : db) : db * response :=
  let today := clk_today clk in
  if negb (JS.truthy studentId) || negb (JS.truthy roomId) || negb (JS.truthy timeSlot)
  then (d, Error 400 "Missing required fields")
  else if negb (isTimeSlotValid clk timeSlot)
  then (d, Error 400 "This time slot has already passed and cannot be booked")
  else if f 0%nat then (d, Error 500 "Server error checking bookings")
  else
    match checkSql studentId today (bookings d) with
    | _ :: _ => (d, Error 400 "You can only book one slot per day")
    | [] =>
        if f 1%nat then (d, Error 500 "Server error checking availability")
        else
          match slotCheckSql roomId today timeSlot (room_availability d) with
          | [] =>
              if f 2%nat then (d, Error 400 "Time slot not available")
              else
                match statusCheckSql roomId today timeSlot (room_availability d) with
                | [] => (d, Error 400 "Time slot not available")
                | slotStatus :: _ => (d, Error 400 (errorMessage slotStatus))
                end
          | _ :: _ =>
              let bookingId := "book_" ++ JS.ofInt (clk_now clk) in
              if f 3%nat then (d, Error 500 "Database error creating booking")
              else
                let d1 := with_bookings
                            (bookingSql bookingId studentId roomId today timeSlot (bookings d)) d in
                if f 4%nat then
                  let d2 := if f 5%nat then d1
                            else with_bookings (rollbackSql bookingId (bookings d1)) d1 in
                  (d2, Error 500 "Booking update failed")
                else
                  (with_availability
                     (updateSql studentId roomId today timeSlot (room_availability d1)) d1,
                   BookingCreated bookingId)
          end
    end.

(** *** The handler as the store sees it

    Between two store calls of one request the store serves the
    calls of the other requests.  A request in flight is the store
    call it waits for; one step runs that call and the callback that
    receives its result. *)

Inductive pc :=
| AtCheck
| AtSlotCheck
| AtStatusCheck
| AtBooking (bookingId : string)
| AtUpdate (bookingId : string)
| AtRollback (bookingId : string) (sent : response)
| Done (sent : response).

Record thread := Thread {
  t_faults : faults;
  t_clock : clock;
  t_studentId : string;
  t_roomId : string;
  t_timeSlot : string;
  t_pc : pc
}.

Definition at_pc (t : thread) (p : pc) : thread :=
  Thread (t_faults t) (t_clock t) (t_studentId t) (t_roomId t) (t_timeSlot t) p.

(** The synchronous part of the handler, up to the first store call. *)
Definition start (f : faults) (clk : clock) (studentId roomId timeSlot : string) : thread :=
  Thread f clk studentId roomId timeSlot
    (if negb (JS.truthy studentId) || negb (JS.truthy roomId) || negb (JS.truthy timeSlot)
     then Done (Error 400 "Missing required fields")
     else if negb (isTimeSlotValid clk timeSlot)
     then Done (Error 400 "This time slot has already passed and cannot be booked")
     else AtCheck).

Definition step (t : thread) (d : db) : db * thread :=
  let f := t_faults t in
  let today := clk_today (t_clock t) in
  let studentId := t_studentId t in
  let roomId := t_roomId t in
  let timeSlot := t_timeSlot t in
  match t_pc t with
  | AtCheck =>
      if f 0%nat then (d, at_pc t (Done (Error 500 "Server error checking bookings")))
      else
        match checkSql studentId today (bookings d) with
        | _ :: _ => (d, at_pc t (Done (Error 400 "You can only book one slot per day")))
        | [] => (d, at_pc t AtSlotCheck)
        end
  | AtSlotCheck =>
      if f 1%nat then (d, at_pc t (Done (Error 500 "Server error checking availability")))
      else
        match slotCheckSql roomId today timeSlot (room_availability d) with
        | [] => (d, at_pc t AtStatusCheck)
        | _ :: _ => (d, at_pc t (AtBooking ("book_" ++ JS.ofInt (clk_now (t_clock t)))))
        end
  | AtStatusCheck =>
      if f 2%nat then (d, at_pc t (Done (Error 400 "Time slot not available")))
      else
        match statusCheckSql roomId today timeSlot (room_availability d) with
        | [] => (d, at_pc t (Done (Error 400 "Time slot not available")))
        | slotStatus :: _ => (d, at_pc t (Done (Error 400 (errorMessage slotStatus))))
        end
  | AtBooking bookingId =>
      if f 3%nat then (d, at_pc t (Done (Error 500 "Database error creating booking")))
      else (with_bookings
              (bookingSql bookingId studentId roomId today timeSlot (bookings d)) d,
            at_pc t (AtUpdate bookingId))
  | AtUpdate bookingId =>
      if f 4%nat
      then (d, at_pc t (AtRollback bookingId (Error 500 "Booking update failed")))
      else (with_availability
              (updateSql studentId roomId today timeSlot (room_availability d)) d,
            at_pc t (Done (BookingCreated bookingId)))
  | AtRollback bookingId sent =>
      if f 5%nat then (d, at_pc t (Done sent))
      else (with_bookings (rollbackSql bookingId (bookings d)) d, at_pc t (Done sent))
  | Done sent => (d, t)
  end.

(** What the caller of a request has received so far. *)
Definition sent (t : thread) : option response :=
  match t_pc t with
  | Done r | AtRollback _ r => Some r
  | _ => None
  end.

(** One request alone: its store calls back to back. *)
Fixpoint run (fuel : nat) (t : thread) (d : db) : db * thread :=
  match fuel with
  | O => (d, t)
  | S fuel' => let '(d', t') := step t d in run fuel' t' d'
  end.

(** Several requests in flight; the schedule names, call by call,
    the request whose store call is served next. *)
Fixpoint replace (n : nat) (t : thread) (ts : list thread) : list thread :=
  match ts, n with
  | [], _ => []
  | _ :: rest, O => t :: rest
  | t' :: rest, S n' => t' :: replace n' t rest
  end.

Fixpoint interleave (schedule : list nat) (ts : list thread) (d : db) : db * list thread :=
  match schedule with
  | [] => (d, ts)
  | n :: rest =>
      match nth_error ts n with
      | Some t => let '(d', t') := step t d in interleave rest (replace n t' ts) d'
      | None => interleave rest ts d
      end
  end.

End PostBookings.

(** ** PUT /api/bookings/:bookingId/status *)

Module PutBookingStatus.

Definition getBookingSql (bookingId : string) (t : list booking) : list booking :=
  filter (fun b => b_id b =? bookingId) t.

Definition updateBookingSql (status : string) (approvedBy : option string) (now : Z)
           (bookingId : string) (t : list booking) : list booking :=
  update (fun b => b_id b =? bookingId)
         (fun b => Booking (b_id b) (b_student_id b) (b_room_id b) (b_booking_date b)
                           (b_time_slot b) status approvedBy (Some now))
         t.

Definition updateAvailabilitySql (st : slot_status) (roomId date timeSlot studentId : string)
           (t : list availability) : list availability :=
  update (fun r => of_slot roomId date timeSlot r && student_is studentId r)
         (set_status st) t.

Definition availabilityStatus (status : string) : slot_status :=
  if JS.toLowerCase status =? "approved" then reserved else free.

Definition handler (f : faults) (clk : clock) (bookingId status : string)
           (approvedBy : option string) (d : db) : db * response :=
  if f 0%nat then (d, Error 500 "Failed to get booking details")
  else
    match getBookingSql bookingId (bookings d) with
    | [] => (d, Error 404 "Booking not found")
    | booking :: _ =>
        if f 1%nat then (d, Error 500 "Update failed")
        else
          let d1 := with_bookings
                      (updateBookingSql status approvedBy (clk_now clk) bookingId (bookings d)) d in
          let d2 := if f 2%nat then d1
                    else with_availability
                           (updateAvailabilitySql (availabilityStatus status)
                              (b_room_id booking) (b_booking_date booking)
                              (b_time_slot booking) (b_student_id booking)
                              (room_availability d1)) d1 in
          (d2, SuccessMessage "Booking status updated")
    end.

End PutBookingStatus.

(** ** Room management *)

Definition disableRoomSql (roomId : string) (t : list room) : list room :=
  update (fun r => r_id r =? roomId) (set_is_disabled 1) t.

Definition enableRoomSql (roomId : string) (t : list room) : list room :=
  update (fun r => r_id r =? roomId) (set_is_disabled 0) t.

(** [affectedRows] of an [UPDATE] whose [SET] changes every row it
    matches. *)
Definition affectedRows {A : Type} (cond : A -> bool) (t : list A) : nat :=
  length (filter cond t).

(** POST /api/rooms: the room, then its slots for today and tomorrow,
    one plain [INSERT] each, whose errors the callback ignores.  The
    insert of the room names no [is_disabled]: the column takes its
    default, 0. *)
Module PostRooms.

Definition sql (roomId : string) (name category location description : option string)
           (t : list room) : list room :=
  t ++ [Room roomId name category location description
             "assets/images/default_room.jpg" 0].

Definition slotSql := insert_slot.

Fixpoint insertSlots (f : faults) (k : nat) (roomId date : string)
         (labels : list string) (t : list availability) : list availability :=
  match labels with
  | [] => t
  | slot :: rest =>
      insertSlots f (S k) roomId date rest
        (if f k then t else slotSql slot roomId date t)
  end.

Definition handler (f : faults) (clk : clock)
           (name category location description : option string) (d : db) : db * response :=
  let roomId := "room_" ++ JS.ofInt (clk_now clk) in
  if f 0%nat then (d, Error 500 "Failed to create room")
  else
    let d1 := with_rooms (sql roomId name category location description (rooms d)) d in
    let today := clk_today clk in
    let tomorrowStr := clk_tomorrow clk in
    let t1 := insertSlots f 1 roomId today timeSlots (room_availability d1) in
    let t2 := insertSlots f (1 + length timeSlots) roomId tomorrowStr timeSlots t1 in
    (with_availability t2 d1, RoomCreated roomId).

End PostRooms.

(** PUT /api/rooms/:roomId *)
Module PutRoom.

Definition sql (name location description : option string) (roomId : string)
           (t : list room) : list room :=
  update (fun r => r_id r =? roomId)
         (fun r => Room (r_id r) name (r_category r) location description
                        (r_image_url r) (r_is_disabled r))
         t.

Definition handler (f : faults) (roomId : string)
           (name location description : option string) (d : db) : db * response :=
  if f 0%nat then (d, Error 500 "Failed to update room")
  else (with_rooms (sql name location description roomId (rooms d)) d, Success).

End PutRoom.

(** PATCH /api/rooms/:roomId/disable *)
Module PatchRoomDisable.

(** [COUNT( * ) ... AND status != 'free']. *)
Definition checkSql (roomId today : string) (t : list availability) : nat :=
  length (filter (fun r => of_room_date roomId today r &&
                           negb (status_eqb (ra_status r) free)) t).

Definition is_free_of (roomId today : string) (r : availability) : bool :=
  of_room_date roomId today r && status_eqb (ra_status r) free.

Definition disableSlotsSql (roomId today : string) (t : list availability) :=
  update (is_free_of roomId today) (set_status disabled) t.

Definition handler (f : faults) (clk : clock) (roomId : string) (d : db) : db * response :=
  let today := clk_today clk in
  if f 0%nat then (d, Error 500 "Server error")
  else if (0 <? checkSql roomId today (room_availability d))%nat
  then (d, Error 400 "Cannot disable room with booked or pending slots")
  else if f 1%nat then (d, Error 500 "Failed to disable time slots")
  else
    let affected := affectedRows (is_free_of roomId today) (room_availability d) in
    let d1 := with_availability (disableSlotsSql roomId today (room_availability d)) d in
    if f 2%nat then (d1, Error 500 "Failed to disable room")
    else (with_rooms (disableRoomSql roomId (rooms d1)) d1,
          SlotsAffected "Room disabled successfully" affected).

End PatchRoomDisable.

(** PATCH /api/rooms/:roomId/enable *)
Module PatchRoomEnable.

Definition is_disabled_of (roomId today : string) (r : availability) : bool :=
  of_room_date roomId today r && status_eqb (ra_status r) disabled.

Definition enableSlotsSql (roomId today : string) (t : list availability) :=
  update (is_disabled_of roomId today) (set_status free) t.

Definition handler (f : faults) (clk : clock) (roomId : string) (d : db) : db * response :=
  let today := clk_today clk in
  if f 0%nat then (d, Error 500 "Failed to enable time slots")
  else
    let affected := affectedRows (is_disabled_of roomId today) (room_availability d) in
    let d1 := with_availability (enableSlotsSql roomId today (room_availability d)) d in
    if f 1%nat then (d1, Error 500 "Failed to enable room")
    else (with_rooms (enableRoomSql roomId (rooms d1)) d1,
          SlotsAffected "Room enabled successfully" affected).

End PatchRoomEnable.

(** PATCH /api/rooms/:roomId/time-slots/:timeSlot/disable *)
Module PatchSlotDisable.

Definition checkSql (roomId today timeSlot : string) (t : list availability) :=
  filter (of_slot roomId today timeSlot) t.

Definition disableSql (roomId today timeSlot : string) (t : list availability) :=
  update (of_slot roomId today timeSlot) (set_status disabled) t.

(** [COUNT( * )] and [SUM(status = 'disabled')] over the room's
    slots of the day, as the connection of [db.js] hands them over:
    it sets no [decimalNumbers], so the count, a BIGINT, comes as a
    number and the sum, a DECIMAL, as a string of digits. *)
Definition checkAllDisabledSql (roomId today : string) (t : list availability) : Z * string :=
  let rows := filter (of_room_date roomId today) t in
  (Z.of_nat (length rows),
   JS.ofInt (Z.of_nat (length (filter (fun r => status_eqb (ra_status r) disabled) rows)))).

(** [total === disabled] for a number and a string: [===] converts
    nothing, and values of two types are never equal. *)
Definition strictEquals (total : Z) (alreadyDisabled : string) : bool := false.

Definition handler (f : faults) (clk : clock) (roomId timeSlot : string)
           (d : db) : db * response :=
  let today := clk_today clk in
  if f 0%nat then (d, Error 500 "Server error")
  else
    match checkSql roomId today timeSlot (room_availability d) with
    | [] => (d, Error 404 "Time slot not found")
    | row :: _ =>
        if negb (status_eqb (ra_status row) free)
        then (d, Error 400 "Can only disable free time slots")
        else if f 1%nat then (d, Error 500 "Failed to disable time slot")
        else
          let d1 := with_availability
                      (disableSql roomId today timeSlot (room_availability d)) d in
          if f 2%nat then (d1, Error 500 "Server error")
          else
            let '(total, alreadyDisabled) :=
              checkAllDisabledSql roomId today (room_availability d1) in
            if strictEquals total alreadyDisabled && negb (f 3%nat)
            then (with_rooms (disableRoomSql roomId (rooms d1)) d1, Success)
            else (d1, Success)
    end.

End PatchSlotDisable.

(** PATCH /api/rooms/:roomId/time-slots/:timeSlot/enable *)
Module PatchSlotEnable.

Definition is_disabled_slot (roomId today timeSlot : string) (r : availability) : bool :=
  of_slot roomId today timeSlot r && status_eqb (ra_status r) disabled.

Definition enableSql (roomId today timeSlot : string) (t : list availability) :=
  update (is_disabled_slot roomId today timeSlot) (set_status free) t.

(** Store call 1, the update of the room record, is sent without a
    callback: the response does not wait for it. *)
Definition handler (f : faults) (clk : clock) (roomId timeSlot : string)
           (d : db) : db * response :=
  let today := clk_today clk in
  if f 0%nat then (d, Error 500 "Failed to enable time slot")
  else
    let d1 := with_availability
                (enableSql roomId today timeSlot (room_availability d)) d in
    let d2 := if f 1%nat then d1
              else with_rooms (enableRoomSql roomId (rooms d1)) d1 in
    (d2, Success).

End PatchSlotEnable.

(** ** The public operations *)

Inductive request :=
| ResetRoomStatuses
| GetTimeSlots (roomId : string)
| PostBookings (studentId roomId timeSlot : string)
| PutBookingStatus (bookingId status : string) (approvedBy : option string)
| PostRooms (name category location description : option string)
| PutRoom (roomId : string) (name location description : option string)
| PatchRoomDisable (roomId : string)
| PatchRoomEnable (roomId : string)
| PatchSlotDisable (roomId timeSlot : string)
| PatchSlotEnable (roomId timeSlot : string).

(** The store after one operation has run to its end, under the
    faults and the clock of that run. *)
Definition serve (f : faults) (clk : clock) (rq : request) (d : db) : db :=
  match rq with
  | ResetRoomStatuses => resetRoomStatuses f clk d
  | GetTimeSlots roomId => fst (GetTimeSlots.handler f clk roomId d)
  | PostBookings studentId roomId timeSlot =>
      fst (PostBookings.handler f clk studentId roomId timeSlot d)
  | PutBookingStatus bookingId status approvedBy =>
      fst (PutBookingStatus.handler f clk bookingId status approvedBy d)
  | PostRooms name category location description =>
      fst (PostRooms.handler f clk name category location description d)
  | PutRoom roomId name location description =>
      fst (PutRoom.handler f roomId name location description d)
  | PatchRoomDisable roomId => fst (PatchRoomDisable.handler f clk roomId d)
  | PatchRoomEnable roomId => fst (PatchRoomEnable.handler f clk roomId d)
  | PatchSlotDisable roomId timeSlot => fst (PatchSlotDisable.handler f clk roomId timeSlot d)
  | PatchSlotEnable roomId timeSlot => fst (PatchSlotEnable.handler f clk roomId timeSlot d)
  end.

(** The identity of a booking: an [INSERT] of an identity that is in
    the ledger is one of the store calls that fail.  Only the insert
    of [POST /api/bookings] (store call 3) is concerned. *)
Definition identity_kept (f : faults) (clk : clock) (rq : request) (d : db) : Prop :=
  match rq with
  | PostBookings _ _ _ =>
      existsb (fun b => b_id b =? "book_" ++ JS.ofInt (clk_now clk)) (bookings d) = true ->
      f 3%nat = true
  | _ => True
  end.

(** The states the operations lead to from [d0], one request served
    at a time. *)
Inductive reachable (d0 : db) : db -> Prop :=
| reach_start : reachable d0 d0
| reach_serve f clk rq d :
    reachable d0 d -> identity_kept f clk rq d -> reachable d0 (serve f clk rq d).

(** ** Vocabulary of the properties *)


(** A slot nobody holds: free or disabled. *)
Definition non_occupied (r : availability) : bool :=
  status_eqb (ra_status r) free || status_eqb (ra_status r) disabled.





(** Two ledger rows for the same slot and student. *)
Definition same_booking_key (b b' : booking) : Prop :=
  b_room_id b' = b_room_id b /\ b_booking_date b' = b_booking_date b /\
  b_time_slot b' = b_time_slot b /\ b_student_id b' = b_student_id b.







(** What a materialised row looks like: free, unbound, of the room
    and date, its label one of [labels]. *)
Definition fresh_slot (roomId date : string) (labels : list string) (r : availability) : Prop :=
  ra_status r = free /\ ra_student_id r = None /\ ra_booking_id r = None /\
  ra_room_id r = roomId /\ ra_availability_date r = date /\ In (ra_time_slot r) labels.

(** The slot of a row is still open at the time of the request. *)
Definition open_now (clk : clock) (r : availability) : bool :=
  isTimeSlotValid clk (ra_time_slot r).

(** Book calls for one slot served one after the other, each with the
    clock and the student of its caller, the store failing nowhere. *)
Fixpoint book_in_turn (roomId timeSlot : string) (callers : list (clock * string))
         (d : db) : db * list response :=
  match callers with
  | [] => (d, [])
  | (clk, studentId) :: rest =>
      let '(d1, r) := PostBookings.handler no_faults clk studentId roomId timeSlot d in
      let '(d2, rs) := book_in_turn roomId timeSlot rest d1 in
      (d2, r :: rs)
  end.

(** ** Sample data

    One room, its four slots of 7 November 2025, and a clock that
    reads seven in the morning, local time, of that day. *)

Definition morning : clock :=
  Clock "2025-11-07" "2025-11-08" "2025-11-08" 1762498800000 1762473600000.

(** The same day, [ms] milliseconds later. *)
Definition later (ms : Z) (clk : clock) : clock :=
  Clock (clk_today clk) (clk_tomorrow clk) (clk_tomorrowLocal clk)
        (clk_localTime clk + ms) (clk_now clk + ms).

(** The environment in which exactly store call [n] fails. *)
Definition fail_at (n : nat) : faults := fun k => (k =? n)%nat.

Definition room1 : room :=
  Room "R1" (Some "Study room 1") (Some "Study Room") (Some "Library") None
       "assets/images/default_room.jpg" 0.

Definition slot_of (date timeSlot : string) (st : slot_status) (student : option string) :=
  Availability timeSlot st "R1" date student None.

Definition today_slots (first : slot_status) (student : option string) : list availability :=
  [ slot_of "2025-11-07" "08:00-10:00" first student;
    slot_of "2025-11-07" "10:00-12:00" free None;
    slot_of "2025-11-07" "13:00-15:00" free None;
    slot_of "2025-11-07" "15:00-17:00" free None ].

(** Every slot of the room free. *)
Definition db_free : db := Db [room1] (today_slots free None) [].

(** The room with its first slot already disabled, the others free. *)
Definition db_one_disabled : db := Db [room1] (today_slots disabled None) [].

(** The room before any of its slots of the day exists. *)
Definition db_no_slots : db := Db [room1] [] [].

(** The room flagged as disabled although all its slots are free. *)
Definition db_flagged : db := Db [set_is_disabled 1 room1] (today_slots free None) [].

(** A reserved slot of tomorrow and a reserved slot of today. *)
Definition db_two_days : db :=
  Db [room1]
     [slot_of "2025-11-08" "08:00-10:00" reserved (Some "S1");
      slot_of "2025-11-07" "08:00-10:00" reserved (Some "S2")] [].

(** The first slot pending for student S1, with the booking that
    holds it. *)
Definition booking1 : booking :=
  Booking "book_1762473600000" "S1" "R1" "2025-11-07" "08:00-10:00" "Pending" None None.

Definition db_pending : db := Db [room1] (today_slots pending (Some "S1")) [booking1].

(** The sample room after student S1 has booked its first slot, ... *)
Definition db_booked : db :=
  serve no_faults morning (PostBookings "S1" "R1" "08:00-10:00") db_free.

(** ... after that booking has been rejected, ... *)
Definition db_rejected : db :=
  serve no_faults (later 60000 morning)
        (PutBookingStatus "book_1762473600000" "Rejected" (Some "L1")) db_booked.



(** Two book calls for the first slot of the room, one millisecond
    apart, both before the store has answered either. *)
Definition two_callers : list PostBookings.thread :=
  [ PostBookings.start no_faults morning "S1" "R1" "08:00-10:00";
    PostBookings.start no_faults (later 1 morning) "S2" "R1" "08:00-10:00" ].

(** ** Further routes and helpers *)

(** GET /api/bookings/student/:studentId/has-booked-today *)
Module GetHasBookedToday.

Inductive reply :=
| Failed (code : nat) (error : string)
| HasBooked (hasBooked : bool).

(** [SELECT COUNT( * ) as count FROM bookings WHERE student_id = ?
    AND booking_date = ?]. *)
Definition sql (studentId today : string) (t : list booking) : nat :=
  length (filter (fun b => (b_student_id b =? studentId) && (b_booking_date b =? today)) t).

Definition handler (f : faults) (clk : clock) (studentId : string) (d : db) : reply :=
  let today := clk_today clk in
  if f 0%nat then Failed 500 "Server error"
  else HasBooked (0 <? sql studentId today (bookings d))%nat.

End GetHasBookedToday.


Definition booking_day (b : booking) : string * string :=
  (b_student_id b, b_booking_date b).

(** No student has two ledger rows for one day. *)
Definition one_per_day (bs : list booking) : Prop := NoDup (map booking_day bs).

(** The number of ['-'] in a label. *)
Fixpoint hyphens (s : string) : nat :=
  match s with
  | EmptyString => 0
  | String c rest => if Ascii.eqb c "-" then S (hyphens rest) else hyphens rest
  end.

(** The end of each configured slot, in minutes of the day. *)
Definition endMinutes (timeSlot : string) : Z :=
  if timeSlot =? "08:00-10:00" then 600
  else if timeSlot =? "10:00-12:00" then 720
  else if timeSlot =? "13:00-15:00" then 900
  else 1020.

(** The order of [ORDER BY time_slot] on two rows. *)
Definition by_time_slot (a b : availability) : Prop :=
  (ra_time_slot a <=? ra_time_slot b)%string = true.

(** The requests that write the ledger. *)
Definition writes_ledger (rq : request) : bool :=
  match rq with
  | PostBookings _ _ _ | PutBookingStatus _ _ _ => true
  | _ => false
  end.


(** ** Login *)

(** The value of a field of a JSON body.  Numbers are taken as
    integers, objects and arrays as one opaque value. *)
Inductive jsval :=
| JUndefined
| JNull
| JBool (b : bool)
| JNumber (n : Z)
| JString (s : string)
| JObject.

Definition js_truthy (v : jsval) : bool :=
  match v with
  | JUndefined | JNull => false
  | JBool b => b
  | JNumber n => negb (n =? 0)%Z
  | JString s => JS.truthy s
  | JObject => true
  end.

Record user := User {
  u_id : string;
  u_full_name : string;
  u_email : string;
  u_password : string;
  u_role : string
}.

(** POST /api/login.  [argon2.verify(hash, password)] is a parameter:
    it resolves to a boolean or rejects ([None]). *)
Module PostLogin.

Inductive reply :=
| Failed (code : nat) (error : string)
| LoggedIn (uid fullName email role userType : string).

Definition sql (email : string) (t : list user) : list user :=
  filter (fun u => u_email u =? email) t.

Definition handler (verify : string -> string -> option bool) (f : faults)
           (email password : jsval) (users : list user) : reply :=
  if negb (js_truthy email) || negb (js_truthy password)
  then Failed 400 "Email and password are required"
  else
    match email, password with
    | JString email, JString password =>
        if f 0%nat then Failed 500 "Server error"
        else
          match sql email users with
          | [] => Failed 401 "Invalid login credentials"
          | user :: _ =>
              match verify (u_password user) password with
              | None => Failed 500 "Server error during login"
              | Some false => Failed 401 "Invalid login credentials"
              | Some true =>
                  LoggedIn (u_id user) (u_full_name user) email (u_role user) (userType email)
              end
          end
    | _, _ => Failed 400 "Invalid input format"
    end.

End PostLogin.


(** ** The listings of rooms *)

(** [s.replace(pattern, replacement)] for a string pattern: the first
    occurrence only. *)
Fixpoint replace_first (pattern replacement s : string) : string :=
  if String.prefix pattern s
  then replacement ++ substring (String.length pattern)
                                (String.length s - String.length pattern) s
  else match s with
       | EmptyString => EmptyString
       | String c rest => String c (replace_first pattern replacement rest)
       end.

(** [a || b] on a nullable string: [b] when [a] is [NULL] or empty. *)
Definition or_else (a : option string) (b : string) : string :=
  match a with
  | Some s => if JS.truthy s then s else b
  | None => b
  end.

(** [ORDER BY] as a stable insertion sort. *)
Fixpoint insert_by {A : Type} (leb : A -> A -> bool) (a : A) (l : list A) : list A :=
  match l with
  | [] => [a]
  | b :: rest => if leb a b then a :: l else b :: insert_by leb a rest
  end.

Definition order_by {A : Type} (leb : A -> A -> bool) (l : list A) : list A :=
  fold_right (insert_by leb) [] l.

(** The order of a nullable string column: [NULL] first. *)
Definition compare_nullable (a b : option string) : comparison :=
  match a, b with
  | None, None => Eq
  | None, Some _ => Lt
  | Some _, None => Gt
  | Some x, Some y => String.compare x y
  end.

(** [WHERE r.name IS NOT NULL AND r.name != '' AND r.name != 'Unknown'
    AND r.category IS NOT NULL]. *)
Definition listed (r : room) : bool :=
  match r_name r, r_category r with
  | Some n, Some _ => negb (n =? "") && negb (n =? "Unknown")
  | _, _ => false
  end.

(** [SELECT COUNT( * ) FROM room_availability ra WHERE ra.room_id =
    r.id AND ra.availability_date = ? AND ra.status = ...]. *)
Definition count_slots (roomId today : string) (st : slot_status)
           (t : list availability) : nat :=
  length (filter (fun r => of_room_date roomId today r && status_eqb (ra_status r) st) t).

(** [`Room ${room.id.replace('room_', '')}`]. *)
Definition default_name (roomId : string) : string :=
  "Room " ++ replace_first "room_" "" roomId.

(** [room.description || `Available ${room.category.toLowerCase()} for
    bookings.`]: [None] when the default is needed and the category is
    [NULL], where [toLowerCase] throws. *)
Definition description_of (r : room) : option string :=
  match r_description r with
  | Some s =>
      if JS.truthy s then Some s
      else match r_category r with
           | Some c => Some ("Available " ++ JS.toLowerCase c ++ " for bookings.")
           | None => None
           end
  | None =>
      match r_category r with
      | Some c => Some ("Available " ++ JS.toLowerCase c ++ " for bookings.")
      | None => None
      end
  end.

(** [results.map(callback)] for a callback that may throw. *)
Fixpoint map_or_throw {A B : Type} (g : A -> option B) (l : list A) : option (list B) :=
  match l with
  | [] => Some []
  | a :: rest =>
      match g a, map_or_throw g rest with
      | Some b, Some bs => Some (b :: bs)
      | _, _ => None
      end
  end.

(** GET /api/rooms/all *)
Module GetRoomsAll.

Record row := Row {
  rw_id : string;
  rw_name : string;
  rw_category : option string;
  rw_location : string;
  rw_description : string;
  rw_image_url : string;
  rw_is_disabled : Z;
  rw_free_slots : nat;
  rw_pending_slots : nat;
  rw_reserved_slots : nat;
  rw_disabled_slots : nat;
  rw_can_disable : bool;
  rw_can_enable : bool
}.

Inductive reply :=
| Failed (code : nat) (error : string)
| Rooms (rows : list row)
| Threw.

(** [ORDER BY r.is_disabled, r.category, r.name]. *)
Definition room_leb (a b : room) : bool :=
  match (r_is_disabled a ?= r_is_disabled b)%Z with
  | Lt => true
  | Gt => false
  | Eq =>
      match compare_nullable (r_category a) (r_category b) with
      | Lt => true
      | Gt => false
      | Eq =>
          match compare_nullable (r_name a) (r_name b) with
          | Gt => false
          | _ => true
          end
      end
  end.

Definition sql (rs : list room) : list room :=
  order_by room_leb (filter listed rs).

Definition roomWithStatus (today : string) (t : list availability) (r : room) : option row :=
  let free_slots := count_slots (r_id r) today free t in
  let pending_slots := count_slots (r_id r) today pending t in
  let reserved_slots := count_slots (r_id r) today reserved t in
  let disabled_slots := count_slots (r_id r) today disabled t in
  match description_of r with
  | Some description =>
      Some (Row (r_id r)
                (or_else (r_name r) (default_name (r_id r)))
                (r_category r)
                (or_else (r_location r) "Campus Building")
                description
                (r_image_url r)
                (r_is_disabled r)
                free_slots pending_slots reserved_slots disabled_slots
                ((0 <? free_slots)%nat && (pending_slots =? 0)%nat && (reserved_slots =? 0)%nat)
                (r_is_disabled r =? 1)%Z)
  | None => None
  end.

Definition handler (f : faults) (clk : clock) (d : db) : reply :=
  let today := clk_today clk in
  if f 0%nat then Failed 500 "Server error"
  else
    match map_or_throw (roomWithStatus today (room_availability d)) (sql (rooms d)) with
    | Some roomsWithStatus => Rooms roomsWithStatus
    | None => Threw
    end.

End GetRoomsAll.

(** GET /api/rooms/availability *)
Module GetRoomsAvailability.

Record row := Row {
  rw_id : string;
  rw_name : string;
  rw_category : option string;
  rw_location : string;
  rw_description : string;
  rw_image_url : string;
  rw_available_slots : nat;
  rw_total_slots : nat;
  rw_is_available : bool;
  rw_is_disabled : Z
}.

Inductive reply :=
| Failed (code : nat) (error : string)
| Rooms (rows : list row)
| Threw.

(** [ORDER BY r.category, r.name]. *)
Definition room_leb (a b : room) : bool :=
  match compare_nullable (r_category a) (r_category b) with
  | Lt => true
  | Gt => false
  | Eq =>
      match compare_nullable (r_name a) (r_name b) with
      | Gt => false
      | _ => true
      end
  end.

(** [WHERE r.is_disabled = 0] and the conditions on name and
    category. *)
Definition sql (rs : list room) : list room :=
  order_by room_leb (filter (fun r => (r_is_disabled r =? 0)%Z && listed r) rs).

Definition roomWithAvailability (today : string) (t : list availability) (r : room)
  : option row :=
  let available_slots := count_slots (r_id r) today free t in
  let total_slots := length (filter (of_room_date (r_id r) today) t) in
  match description_of r with
  | Some description =>
      Some (Row (r_id r)
                (or_else (r_name r) (default_name (r_id r)))
                (r_category r)
                (or_else (r_location r) "Campus Building")
                description
                (r_image_url r)
                available_slots total_slots
                (0 <? available_slots)%nat
                (r_is_disabled r))
  | None => None
  end.

Definition handler (f : faults) (clk : clock) (d : db) : reply :=
  let today := clk_today clk in
  if f 0%nat then Failed 500 "Server error"
  else
    match map_or_throw (roomWithAvailability today (room_availability d)) (sql (rooms d)) with
    | Some roomsWithAvailability => Rooms roomsWithAvailability
    | None => Threw
    end.

End GetRoomsAvailability.

(** The first slot of the room reserved for student S1. *)
Definition db_reserved : db := Db [room1] (today_slots reserved (Some "S1")) [].

(* ================================================================== *)
(** * Part II: properties *)
(* ================================================================== *)

Lemma endsWith_unfold (s suffix : string) :
  JS.endsWith s suffix =
  (s =? suffix) ||
  match s with
  | EmptyString => false
  | String _ rest => JS.endsWith rest suffix
  end.
Proof. destruct s; reflexivity. Qed.

Lemma endsWith_app (s suffix : string) :
  JS.endsWith s suffix = true <-> exists p, s = p ++ suffix.
Proof.
  induction s as [|c s IH]; rewrite endsWith_unfold.
  - rewrite orb_false_r, String.eqb_eq. split.
    + intros <-. now exists "".
    + intros [[|c p] H]; simpl in H; [auto | discriminate].
  - rewrite orb_true_iff, String.eqb_eq, IH. split.
    + intros [H | [p ->]].
      * now exists "".
      * now exists (String c p).
    + intros [[|c' p] H]; simpl in H.
      * now left.
      * injection H as _ ->. right. now exists p.
Qed.

Lemma staff_lecturer_disjoint (email : string) :
  JS.endsWith email "@mfu.ac.th" = true -> JS.endsWith email "@mfu.th" = false.
Proof.
  induction email as [|c s IH];
    rewrite (endsWith_unfold _ "@mfu.ac.th"), (endsWith_unfold _ "@mfu.th").
  - discriminate.
  - rewrite orb_true_iff, orb_false_iff. intros [H | H].
    + apply String.eqb_eq in H. injection H as -> ->. split; reflexivity.
    + split; [|auto].
      apply String.eqb_neq. intros E. injection E as -> ->. vm_compute in H.
      discriminate.
Qed.

(** C9: the user type is a function of the email's suffix alone:
    staff for every email ending in [@mfu.th], lecturer for every email
    ending in [@mfu.ac.th], student for every other email. *)
Theorem userType_by_domain_suffix (email : string) :
  ((exists p, email = p ++ "@mfu.th") -> userType email = "staff") /\
  ((exists p, email = p ++ "@mfu.ac.th") -> userType email = "lecturer") /\
  (~ (exists p, email = p ++ "@mfu.th") -> ~ (exists p, email = p ++ "@mfu.ac.th") ->
   userType email = "student").
Proof.
  rewrite <- !endsWith_app. unfold userType. repeat split.
  - intros ->. reflexivity.
  - intros H. rewrite (staff_lecturer_disjoint _ H), H. reflexivity.
  - intros H1 H2. apply not_true_is_false in H1, H2. rewrite H1, H2. reflexivity.
Qed.

(** ** Tables under [UPDATE] *)

Lemma in_update {A : Type} (cond : A -> bool) (set : A -> A) (t : list A) (row' : A) :
  In row' (update cond set t) <->
  exists row, In row t /\ row' = if cond row then set row else row.
Proof.
  unfold update. rewrite in_map_iff. split; intros [row [H1 H2]]; exists row; auto.
Qed.

Lemma update_pointwise {A : Type} (cond : A -> bool) (set : A -> A) (t : list A) :
  Forall2 (fun row row' => row' = if cond row then set row else row) t (update cond set t).
Proof. induction t; simpl; constructor; auto. Qed.

Lemma update_none {A : Type} (cond : A -> bool) (set : A -> A) (t : list A) :
  (forall row, In row t -> cond row = false) -> update cond set t = t.
Proof.
  induction t as [|a t IH]; simpl; intros H; [reflexivity|].
  rewrite (H a) by now left. f_equal. apply IH. intros row Hin. apply H. now right.
Qed.

Lemma update_twice {A : Type} (cond : A -> bool) (set : A -> A) (t : list A) :
  (forall row, cond row = true -> cond (set row) = false) ->
  update cond set (update cond set t) = update cond set t.
Proof.
  intros H. apply update_none. intros row' Hin.
  apply in_update in Hin. destruct Hin as [row [_ ->]].
  destruct (cond row) eqn:E; auto.
Qed.

Lemma status_eqb_eq (a b : slot_status) : status_eqb a b = true <-> a = b.
Proof. destruct a, b; simpl; split; congruence. Qed.

Lemma Forall2_impl {A B : Type} (P Q : A -> B -> Prop) (l : list A) (l' : list B) :
  (forall a b, P a b -> Q a b) -> Forall2 P l l' -> Forall2 Q l l'.
Proof. intros H F. induction F; constructor; auto. Qed.

(** ** The daily reset *)

(** C6: a run of the daily reset sets every slot dated one day ahead
    whose status is pending or reserved to free and clears its bound
    student; every other slot (any slot of another date, and
    tomorrow's free or disabled slots) is left as it is, and so are
    the rooms and the bookings; running the reset again changes
    nothing. *)
Theorem reset_reclaims_tomorrow (f : faults) (clk : clock) (d : db) :
  f 0%nat = false ->
  let d' := resetRoomStatuses f clk d in
  rooms d' = rooms d /\ bookings d' = bookings d /\
  Forall2
    (fun r r' =>
       (ra_availability_date r = clk_tomorrowLocal clk ->
        ra_status r = pending \/ ra_status r = reserved ->
        r' = Availability (ra_time_slot r) free (ra_room_id r)
                          (ra_availability_date r) None None) /\
       (ra_availability_date r <> clk_tomorrowLocal clk \/
        ra_status r = free \/ ra_status r = disabled -> r' = r))
    (room_availability d) (room_availability d') /\
  (forall f', resetRoomStatuses f' clk d' = d').
Proof.
  intros Hf d'. subst d'. unfold resetRoomStatuses. rewrite Hf. simpl.
  repeat split.
  - unfold resetSql. eapply Forall2_impl; [|apply update_pointwise].
    simpl. intros r r' ->. split.
    + intros Hd Hs. rewrite Hd, String.eqb_refl.
      destruct Hs as [-> | ->]; reflexivity.
    + intros [Hd | [Hs | Hs]].
      * apply String.eqb_neq in Hd. rewrite Hd. reflexivity.
      * rewrite Hs, andb_false_r. reflexivity.
      * rewrite Hs, andb_false_r. reflexivity.
  - intros f'. destruct (f' 0%nat); [reflexivity|].
    unfold with_availability. simpl. f_equal.
    apply update_twice. intros row _. simpl. apply andb_false_r.
Qed.

Lemma reset_reclaims_tomorrow_witness :
  no_faults 0%nat = false /\
  room_availability (resetRoomStatuses no_faults morning db_two_days)
  = [slot_of "2025-11-08" "08:00-10:00" free None;
     slot_of "2025-11-07" "08:00-10:00" reserved (Some "S2")] /\
  forall f', resetRoomStatuses f' morning (resetRoomStatuses no_faults morning db_two_days)
             = resetRoomStatuses no_faults morning db_two_days.
Proof.
  split; [reflexivity|]. split; [reflexivity|].
  apply (reset_reclaims_tomorrow no_faults morning db_two_days). reflexivity.
Defined.

(** ** Room management *)

Lemma in_enableRoomSql (roomId : string) (t : list room) (r : room) :
  In r (enableRoomSql roomId t) -> r_id r = roomId -> r_is_disabled r = 0%Z.
Proof.
  unfold enableRoomSql. intros Hin Hid.
  apply in_update in Hin. destruct Hin as [r0 [_ ->]].
  destruct (r_id r0 =? roomId) eqn:E; [reflexivity|].
  apply String.eqb_neq in E. contradiction.
Qed.

Lemma in_disableRoomSql (roomId : string) (t : list room) (r : room) :
  In r (disableRoomSql roomId t) -> r_id r = roomId -> r_is_disabled r = 1%Z.
Proof.
  unfold disableRoomSql. intros Hin Hid.
  apply in_update in Hin. destruct Hin as [r0 [_ ->]].
  destruct (r_id r0 =? roomId) eqn:E; [reflexivity|].
  apply String.eqb_neq in E. contradiction.
Qed.

(** C10: every successful call of the per-slot enable sets the
    disabled flag of the room record to 0 (the update of the room,
    sent without a callback, being carried out by the store), also
    when no row of the named slot was in status disabled, so that the
    call changed no slot row. *)
Theorem slot_enable_reenables_room
        (f : faults) (clk : clock) (roomId timeSlot : string) (d : db) :
  snd (PatchSlotEnable.handler f clk roomId timeSlot d) = Success ->
  f 1%nat = false ->
  let d' := fst (PatchSlotEnable.handler f clk roomId timeSlot d) in
  (forall r, In r (rooms d') -> r_id r = roomId -> r_is_disabled r = 0%Z) /\
  (forall r, In r (rooms d) -> r_id r = roomId -> In (set_is_disabled 0 r) (rooms d')) /\
  ((forall r, In r (room_availability d) ->
              of_slot roomId (clk_today clk) timeSlot r = true -> ra_status r <> disabled) ->
   room_availability d' = room_availability d).
Proof.
  unfold PatchSlotEnable.handler. intros Hres Hf1.
  destruct (f 0%nat); [discriminate|]. rewrite Hf1. simpl.
  repeat split.
  - intros r. apply in_enableRoomSql.
  - intros r Hin Hid. apply in_update. exists r. split; [assumption|].
    rewrite Hid, String.eqb_refl. reflexivity.
  - intros Hnone. apply update_none. intros r Hin.
    unfold PatchSlotEnable.is_disabled_slot.
    destruct (of_slot roomId (clk_today clk) timeSlot r) eqn:E; [|reflexivity].
    simpl. destruct (status_eqb (ra_status r) disabled) eqn:S; [|reflexivity].
    apply status_eqb_eq in S. exfalso. exact (Hnone r Hin E S).
Qed.

Lemma slot_enable_reenables_room_witness :
  snd (PatchSlotEnable.handler no_faults morning "R1" "08:00-10:00" db_flagged) = Success /\
  no_faults 1%nat = false /\
  room_availability (fst (PatchSlotEnable.handler no_faults morning "R1" "08:00-10:00" db_flagged))
  = room_availability db_flagged /\
  In (set_is_disabled 0 (set_is_disabled 1 room1))
     (rooms (fst (PatchSlotEnable.handler no_faults morning "R1" "08:00-10:00" db_flagged))).
Proof.
  split; [reflexivity|]. split; [reflexivity|]. split; [reflexivity|].
  apply (slot_enable_reenables_room no_faults morning "R1" "08:00-10:00" db_flagged);
    [reflexivity | reflexivity | left; reflexivity | reflexivity].
Defined.

(** C5, as the code has it: the room-level disable succeeds for every
    room all of whose slots of the current date are free, marking the
    room record disabled and all these slots disabled; it is rejected
    with status 400 whenever any of the room's slots of the current
    date is not free, be it pending, reserved or already disabled. *)
Theorem room_disable_requires_all_free (f : faults) (clk : clock) (roomId : string) (d : db) :
  f 0%nat = false ->
  let res := PatchRoomDisable.handler f clk roomId d in
  ((exists r, In r (room_availability d) /\
              of_room_date roomId (clk_today clk) r = true /\ ra_status r <> free) ->
   res = (d, Error 400 "Cannot disable room with booked or pending slots")) /\
  ((forall r, In r (room_availability d) ->
              of_room_date roomId (clk_today clk) r = true -> ra_status r = free) ->
   f 1%nat = false -> f 2%nat = false ->
   snd res = SlotsAffected "Room disabled successfully"
               (length (filter (of_room_date roomId (clk_today clk)) (room_availability d))) /\
   (forall r, In r (rooms (fst res)) -> r_id r = roomId -> r_is_disabled r = 1%Z) /\
   (forall r, In r (rooms d) -> r_id r = roomId -> In (set_is_disabled 1 r) (rooms (fst res))) /\
   Forall2 (fun r r' => r' = if of_room_date roomId (clk_today clk) r
                             then set_status disabled r else r)
           (room_availability d) (room_availability (fst res)) /\
   bookings (fst res) = bookings d).
Proof.
  intros Hf0 res. subst res. unfold PatchRoomDisable.handler. rewrite Hf0. split.
  - intros [r [Hin [Hr Hs]]].
    assert (H : (0 <? PatchRoomDisable.checkSql roomId (clk_today clk) (room_availability d))%nat = true).
    { apply Nat.ltb_lt. unfold PatchRoomDisable.checkSql.
      assert (Hf : In r (filter (fun r => of_room_date roomId (clk_today clk) r &&
                                          negb (status_eqb (ra_status r) free))
                                (room_availability d))).
      { apply filter_In. split; [assumption|]. rewrite Hr. simpl.
        destruct (status_eqb (ra_status r) free) eqn:S; [|reflexivity].
        apply status_eqb_eq in S. contradiction. }
      destruct (filter _ (room_availability d)); [destruct Hf | simpl; lia]. }
    rewrite H. reflexivity.
  - intros Hall Hf1 Hf2.
    assert (H : PatchRoomDisable.checkSql roomId (clk_today clk) (room_availability d) = 0%nat).
    { unfold PatchRoomDisable.checkSql.
      destruct (filter _ (room_availability d)) as [|r l] eqn:E; [reflexivity|].
      assert (Hin : In r (r :: l)) by now left.
      rewrite <- E in Hin. apply filter_In in Hin. destruct Hin as [Hin Hc].
      apply andb_true_iff in Hc. destruct Hc as [Hr Hs].
      rewrite (Hall r Hin Hr) in Hs. discriminate. }
    rewrite H, Hf1, Hf2. simpl.
    assert (Hsame : forall r, In r (room_availability d) ->
              PatchRoomDisable.is_free_of roomId (clk_today clk) r
              = of_room_date roomId (clk_today clk) r).
    { intros r Hin. unfold PatchRoomDisable.is_free_of.
      destruct (of_room_date roomId (clk_today clk) r) eqn:E; [|reflexivity].
      rewrite (Hall r Hin E). reflexivity. }
    repeat split.
    + f_equal. unfold affectedRows. f_equal. apply filter_ext_in. exact Hsame.
    + intros r. apply in_disableRoomSql.
    + intros r Hin Hid. apply in_update. exists r. split; [assumption|].
      rewrite Hid, String.eqb_refl. reflexivity.
    + unfold PatchRoomDisable.disableSlotsSql.
      generalize (update_pointwise (PatchRoomDisable.is_free_of roomId (clk_today clk))
                                   (set_status disabled) (room_availability d)).
      generalize (update (PatchRoomDisable.is_free_of roomId (clk_today clk))
                         (set_status disabled) (room_availability d)).
      revert Hsame. generalize (room_availability d).
      intros t Hsame t' F. induction F; constructor.
      * rewrite <- Hsame by now left. assumption.
      * apply IHF. intros r Hin. apply Hsame. now right.
Qed.

Lemma room_disable_requires_all_free_witness :
  no_faults 0%nat = false /\
  PatchRoomDisable.handler no_faults morning "R1" db_free
  = (Db [set_is_disabled 1 room1] (map (set_status disabled) (today_slots free None)) [],
     SlotsAffected "Room disabled successfully" 4) /\
  bookings (fst (PatchRoomDisable.handler no_faults morning "R1" db_free)) = bookings db_free.
Proof.
  split; [reflexivity|]. split; [reflexivity|].
  apply (room_disable_requires_all_free no_faults morning "R1" db_free);
    [reflexivity | | reflexivity | reflexivity].
  intros r Hin _. simpl in Hin.
  destruct Hin as [<- | [<- | [<- | [<- | []]]]]; reflexivity.
Defined.

(** The claim C5 as the spec has it fails on a room whose slots are
    all non-occupied, one of them already disabled: the request is
    rejected and nothing is changed. *)
Lemma room_disable_rejects_disabled_slot :
  forallb non_occupied (room_availability db_one_disabled) = true /\
  PatchRoomDisable.handler no_faults morning "R1" db_one_disabled
  = (db_one_disabled, Error 400 "Cannot disable room with booked or pending slots").
Proof. split; reflexivity. Qed.

(** ** Slot materialisation *)

Lemma fresh_slot_weaken (roomId date : string) (labels labels' : list string) (r : availability) :
  incl labels labels' -> fresh_slot roomId date labels r -> fresh_slot roomId date labels' r.
Proof. unfold fresh_slot. intros H. intuition. Qed.

Lemma insert_slot_adds (slot roomId date : string) (t : list availability) :
  exists added, insert_slot slot roomId date t = (t ++ added)%list /\
                Forall (fresh_slot roomId date [slot]) added.
Proof.
  unfold insert_slot. destruct (existsb _ t).
  - exists []. rewrite app_nil_r. split; constructor.
  - eexists. split; [reflexivity|]. constructor; [|constructor].
    unfold fresh_slot. simpl. intuition.
Qed.

Lemma of_slot_fresh (roomId date slot : string) :
  of_slot roomId date slot (Availability slot free roomId date None None) = true.
Proof. unfold of_slot, of_room_date. simpl. now rewrite !String.eqb_refl. Qed.

Lemma insert_slot_present (slot roomId date : string) (t : list availability) :
  exists r, In r (insert_slot slot roomId date t) /\ of_slot roomId date slot r = true.
Proof.
  unfold insert_slot. destruct (existsb _ t) eqn:E.
  - apply existsb_exists in E. exact E.
  - eexists. split; [apply in_or_app; right; left; reflexivity|]. apply of_slot_fresh.
Qed.

Lemma insert_by_time_slot_perm (r : availability) (t : list availability) :
  Permutation (insert_by_time_slot r t) (r :: t).
Proof.
  induction t as [|a t IH]; cbn [insert_by_time_slot]; [reflexivity|].
  destruct (ra_time_slot r <=? ra_time_slot a)%string; [reflexivity|].
  rewrite IH. apply perm_swap.
Qed.

Lemma order_by_time_slot_perm (t : list availability) :
  Permutation (order_by_time_slot t) t.
Proof.
  induction t as [|a t IH]; [reflexivity|].
  cbn [order_by_time_slot fold_right]. fold (order_by_time_slot t).
  rewrite insert_by_time_slot_perm. now constructor.
Qed.

Lemma in_sql (roomId today : string) (t : list availability) (r : availability) :
  In r (GetTimeSlots.sql roomId today t) <-> In r t /\ of_room_date roomId today r = true.
Proof.
  unfold GetTimeSlots.sql. rewrite <- filter_In. split; apply Permutation_in.
  - apply order_by_time_slot_perm.
  - symmetry. apply order_by_time_slot_perm.
Qed.

Lemma insertAll_adds (f : faults) (roomId date : string) (labels : list string) :
  forall k t, exists added,
    fst (GetTimeSlots.insertAll f k roomId date labels t) = (t ++ added)%list /\
    Forall (fresh_slot roomId date labels) added.
Proof.
  induction labels as [|slot rest IH]; intros k t; simpl.
  - exists []. rewrite app_nil_r. split; constructor.
  - destruct (f k).
    + destruct (IH (S k) t) as [added [E F]].
      destruct (GetTimeSlots.insertAll f (S k) roomId date rest t) as [t' errors].
      simpl in *. exists added. split; [assumption|].
      eapply Forall_impl; [|exact F]. intros r. apply fresh_slot_weaken.
      intros x Hx. now right.
    + unfold GetTimeSlots.insertSql.
      destruct (insert_slot_adds slot roomId date t) as [a1 [E1 F1]].
      destruct (IH (S k) (insert_slot slot roomId date t)) as [a2 [E2 F2]].
      exists (a1 ++ a2)%list. rewrite E2, E1, app_assoc. split; [reflexivity|].
      apply Forall_app. split.
      * eapply Forall_impl; [|exact F1]. intros r. apply fresh_slot_weaken.
        intros x [<- | []]. now left.
      * eapply Forall_impl; [|exact F2]. intros r. apply fresh_slot_weaken.
        intros x Hx. now right.
Qed.

Lemma insertAll_complete (f : faults) (roomId date : string) (labels : list string) :
  forall k t,
    (forall i, (i < length labels)%nat -> f (k + i)%nat = false) ->
    snd (GetTimeSlots.insertAll f k roomId date labels t) = 0%nat /\
    forall slot, In slot labels ->
      exists r, In r (fst (GetTimeSlots.insertAll f k roomId date labels t)) /\
                of_slot roomId date slot r = true.
Proof.
  induction labels as [|slot rest IH]; intros k t Hf; simpl.
  - split; [reflexivity | intros ? []].
  - assert (H0 : f k = false) by (rewrite <- (Nat.add_0_r k); apply Hf; simpl; lia).
    rewrite H0.
    assert (Hrest : forall i, (i < length rest)%nat -> f (S k + i)%nat = false).
    { intros i Hi. replace (S k + i)%nat with (k + S i)%nat by lia. apply Hf. simpl. lia. }
    destruct (IH (S k) (GetTimeSlots.insertSql slot roomId date t) Hrest) as [E P].
    split; [assumption|]. intros s [<- | Hin]; [|auto].
    destruct (insert_slot_present slot roomId date t) as [r [Hin Hr]].
    destruct (insertAll_adds f roomId date rest (S k) (GetTimeSlots.insertSql slot roomId date t))
      as [added [Eq _]].
    exists r. split; [|assumption]. rewrite Eq. apply in_or_app. now left.
Qed.






(** ** The booking protocol *)

(** A request that has been answered and has no store call left stays
    as it is. *)
Lemma run_done (n : nat) (t : PostBookings.thread) (d : db) (r : response) :
  PostBookings.t_pc t = PostBookings.Done r -> PostBookings.run n t d = (d, t).
Proof.
  intros H. induction n as [|n IH]; simpl; [reflexivity|].
  unfold PostBookings.step. rewrite H. exact IH.
Qed.

Lemma run_next (n : nat) (t : PostBookings.thread) (d : db) :
  PostBookings.run (S n) t d
  = PostBookings.run n (snd (PostBookings.step t d)) (fst (PostBookings.step t d)).
Proof. simpl. destruct (PostBookings.step t d). reflexivity. Qed.

Ltac thread_fields :=
  cbn [fst snd PostBookings.t_pc PostBookings.t_faults PostBookings.t_clock PostBookings.at_pc
       PostBookings.t_studentId PostBookings.t_roomId PostBookings.t_timeSlot].

Ltac next_call :=
  thread_fields; rewrite run_next; unfold PostBookings.step; thread_fields.

Ltac answered :=
  thread_fields; erewrite run_done by reflexivity; split; reflexivity.

(** The handler and its store calls taken one by one agree. *)
Lemma handler_is_run (f : faults) (clk : clock) (studentId roomId timeSlot : string) (d : db) :
  let '(d', t') := PostBookings.run 5 (PostBookings.start f clk studentId roomId timeSlot) d in
  d' = fst (PostBookings.handler f clk studentId roomId timeSlot d) /\
  PostBookings.t_pc t'
  = PostBookings.Done (snd (PostBookings.handler f clk studentId roomId timeSlot d)).
Proof.
  unfold PostBookings.handler, PostBookings.start.
  destruct (negb (JS.truthy studentId) || negb (JS.truthy roomId) || negb (JS.truthy timeSlot));
    [answered|].
  destruct (negb (isTimeSlotValid clk timeSlot)); [answered|].
  next_call. destruct (f 0%nat); [answered|].
  destruct (PostBookings.checkSql studentId (clk_today clk) (bookings d)); [|answered].
  next_call. destruct (f 1%nat); [answered|].
  destruct (PostBookings.slotCheckSql roomId (clk_today clk) timeSlot (room_availability d)).
  - next_call. destruct (f 2%nat); [answered|].
    destruct (PostBookings.statusCheckSql roomId (clk_today clk) timeSlot (room_availability d));
      answered.
  - next_call. destruct (f 3%nat); [answered|].
    next_call. destruct (f 4%nat); [|answered].
    next_call. destruct (f 5%nat); answered.
Qed.

(** C8: a book call that passes the checks on the request and the
    daily limit but finds the target slot not free, or bound to a
    student, is rejected with a reason read off the slot's row:
    already pending when its status is pending, already reserved when
    it is reserved, and booked by another student when, in any other
    status, it is bound to a student. *)
Theorem rejection_names_the_reason
        (f : faults) (clk : clock) (studentId roomId timeSlot : string) (d : db)
        (slotStatus : availability) (others : list availability) :
  JS.truthy studentId = true -> JS.truthy roomId = true -> JS.truthy timeSlot = true ->
  isTimeSlotValid clk timeSlot = true ->
  f 0%nat = false ->
  PostBookings.checkSql studentId (clk_today clk) (bookings d) = [] ->
  f 1%nat = false ->
  PostBookings.slotCheckSql roomId (clk_today clk) timeSlot (room_availability d) = [] ->
  f 2%nat = false ->
  PostBookings.statusCheckSql roomId (clk_today clk) timeSlot (room_availability d)
  = slotStatus :: others ->
  exists reason,
    PostBookings.handler f clk studentId roomId timeSlot d = (d, Error 400 reason) /\
    (ra_status slotStatus = pending -> reason = "Time slot is already pending approval") /\
    (ra_status slotStatus = reserved -> reason = "Time slot is already reserved") /\
    (ra_status slotStatus <> pending -> ra_status slotStatus <> reserved ->
     forall s, ra_student_id slotStatus = Some s -> s <> "" ->
               reason = "Time slot is already booked by another student").
Proof.
  intros Hs Hr Ht Hv H0 Hc H1 Hsc H2 Hst.
  exists (PostBookings.errorMessage slotStatus). split.
  - unfold PostBookings.handler. rewrite Hs, Hr, Ht, Hv, H0, Hc, H1, Hsc, H2, Hst. reflexivity.
  - unfold PostBookings.errorMessage. repeat split.
    + intros ->. reflexivity.
    + intros ->. reflexivity.
    + intros Hp Hres s -> Hne.
      destruct (ra_status slotStatus); try congruence;
        destruct s; try congruence; reflexivity.
Qed.

Lemma rejection_names_the_reason_witness :
  PostBookings.statusCheckSql "R1" (clk_today morning) "08:00-10:00" (room_availability db_pending)
  = [slot_of "2025-11-07" "08:00-10:00" pending (Some "S1")] /\
  exists reason,
    PostBookings.handler no_faults morning "S2" "R1" "08:00-10:00" db_pending
    = (db_pending, Error 400 reason) /\
    (pending = pending -> reason = "Time slot is already pending approval") /\
    (pending = reserved -> reason = "Time slot is already reserved") /\
    (pending <> pending -> pending <> reserved ->
     forall s, Some "S1" = Some s -> s <> "" ->
               reason = "Time slot is already booked by another student").
Proof.
  split; [reflexivity|].
  apply (@rejection_names_the_reason no_faults morning "S2" "R1" "08:00-10:00" db_pending
           (slot_of "2025-11-07" "08:00-10:00" pending (Some "S1")) []);
    reflexivity.
Defined.

(** C3: when the insert of the booking succeeds and the update of the
    slot then fails, the caller receives the error of the update,
    whatever becomes of the compensation; the slots are as before, and
    once the compensating delete is carried out no booking row of that
    attempt is left. *)
Theorem failed_update_is_compensated
        (f : faults) (clk : clock) (studentId roomId timeSlot : string) (d : db) :
  JS.truthy studentId = true -> JS.truthy roomId = true -> JS.truthy timeSlot = true ->
  isTimeSlotValid clk timeSlot = true ->
  f 0%nat = false ->
  PostBookings.checkSql studentId (clk_today clk) (bookings d) = [] ->
  f 1%nat = false ->
  PostBookings.slotCheckSql roomId (clk_today clk) timeSlot (room_availability d) <> [] ->
  f 3%nat = false -> f 4%nat = true ->
  let bookingId := "book_" ++ JS.ofInt (clk_now clk) in
  let res := PostBookings.handler f clk studentId roomId timeSlot d in
  snd res = Error 500 "Booking update failed" /\
  room_availability (fst res) = room_availability d /\
  rooms (fst res) = rooms d /\
  (f 5%nat = false ->
   (forall b, In b (bookings (fst res)) -> b_id b <> bookingId) /\
   ((forall b, In b (bookings d) -> b_id b <> bookingId) ->
    bookings (fst res) = bookings d)).
Proof.
  intros Hs Hr Ht Hv H0 Hc H1 Hsc H3 H4 bookingId res. subst res.
  unfold PostBookings.handler. rewrite Hs, Hr, Ht, Hv, H0, Hc, H1.
  destruct (PostBookings.slotCheckSql roomId (clk_today clk) timeSlot (room_availability d));
    [congruence|].
  rewrite H3, H4. cbn [fst snd negb orb].
  split; [reflexivity|]. split; [destruct (f 5%nat); reflexivity|].
  split; [destruct (f 5%nat); reflexivity|].
  intros ->. cbn [bookings with_bookings]. fold bookingId.
  unfold PostBookings.rollbackSql, PostBookings.bookingSql, delete. split.
  - intros b Hin. apply filter_In in Hin. destruct Hin as [_ Hn].
    apply negb_true_iff, String.eqb_neq in Hn. exact Hn.
  - intros Hfresh. rewrite filter_app. cbn [filter b_id].
    rewrite String.eqb_refl. cbn [negb]. rewrite app_nil_r.
    apply forallb_filter_id. apply forallb_forall. intros b Hin.
    apply negb_true_iff, String.eqb_neq. auto.
Qed.

Lemma failed_update_is_compensated_witness :
  PostBookings.slotCheckSql "R1" (clk_today morning) "08:00-10:00" (room_availability db_free)
  = [slot_of "2025-11-07" "08:00-10:00" free None] /\
  PostBookings.handler (fail_at 4) morning "S1" "R1" "08:00-10:00" db_free
  = (db_free, Error 500 "Booking update failed") /\
  snd (PostBookings.handler (fail_at 4) morning "S1" "R1" "08:00-10:00" db_free)
  = Error 500 "Booking update failed".
Proof.
  split; [reflexivity|]. split; [reflexivity|].
  apply (@failed_update_is_compensated (fail_at 4) morning "S1" "R1" "08:00-10:00" db_free);
    try reflexivity.
  discriminate.
Defined.

(** *** One slot, several callers *)

Lemma of_slot_updateSql_row (roomId today timeSlot studentId : string) (r : availability) :
  of_slot roomId today timeSlot
    (Availability (ra_time_slot r) pending (ra_room_id r) (ra_availability_date r)
                  (Some studentId) (ra_booking_id r))
  = of_slot roomId today timeSlot r.
Proof. reflexivity. Qed.

(** The update of the slot does not look at the status or the student
    of the row it writes. *)
Lemma updateSql_unconditional (studentId roomId today timeSlot : string)
      (t : list availability) (r : availability) :
  In r (PostBookings.updateSql studentId roomId today timeSlot t) ->
  of_slot roomId today timeSlot r = true ->
  ra_status r = pending /\ ra_student_id r = Some studentId.
Proof.
  unfold PostBookings.updateSql. intros Hin Hr.
  apply in_update in Hin. destruct Hin as [r0 [_ ->]].
  destruct (of_slot roomId today timeSlot r0) eqn:E; [split; reflexivity | congruence].
Qed.

Lemma slotCheck_after_update (studentId roomId today timeSlot : string) (t : list availability) :
  PostBookings.slotCheckSql roomId today timeSlot
    (PostBookings.updateSql studentId roomId today timeSlot t) = [].
Proof.
  unfold PostBookings.slotCheckSql, PostBookings.updateSql, update.
  induction t as [|r t IH]; [reflexivity|]. cbn [map filter].
  destruct (of_slot roomId today timeSlot r) eqn:E.
  - rewrite of_slot_updateSql_row, E. exact IH.
  - rewrite E. exact IH.
Qed.

Lemma statusCheck_after_update (studentId roomId today timeSlot : string) (t : list availability) :
  PostBookings.slotCheckSql roomId today timeSlot t <> [] ->
  exists r rest,
    PostBookings.statusCheckSql roomId today timeSlot
      (PostBookings.updateSql studentId roomId today timeSlot t) = r :: rest /\
    ra_status r = pending.
Proof.
  unfold PostBookings.slotCheckSql, PostBookings.statusCheckSql, PostBookings.updateSql, update.
  induction t as [|r t IH]; [intros H; exfalso; apply H; reflexivity|]. cbn [map filter].
  destruct (of_slot roomId today timeSlot r) eqn:E.
  - intros _. rewrite of_slot_updateSql_row, E. eexists. eexists. split; reflexivity.
  - rewrite E. cbn [andb]. exact IH.
Qed.

Lemma book_first (clk : clock) (studentId roomId timeSlot : string) (d : db) :
  JS.truthy studentId = true -> JS.truthy roomId = true -> JS.truthy timeSlot = true ->
  isTimeSlotValid clk timeSlot = true ->
  PostBookings.checkSql studentId (clk_today clk) (bookings d) = [] ->
  PostBookings.slotCheckSql roomId (clk_today clk) timeSlot (room_availability d) <> [] ->
  PostBookings.handler no_faults clk studentId roomId timeSlot d
  = (Db (rooms d)
        (PostBookings.updateSql studentId roomId (clk_today clk) timeSlot (room_availability d))
        (PostBookings.bookingSql ("book_" ++ JS.ofInt (clk_now clk)) studentId roomId
                                 (clk_today clk) timeSlot (bookings d)),
     BookingCreated ("book_" ++ JS.ofInt (clk_now clk))).
Proof.
  intros Hs Hr Ht Hv Hc Hsc. unfold PostBookings.handler, no_faults.
  rewrite Hs, Hr, Ht, Hv, Hc.
  destruct (PostBookings.slotCheckSql roomId (clk_today clk) timeSlot (room_availability d));
    [congruence | reflexivity].
Qed.

Lemma book_when_pending (clk : clock) (studentId roomId timeSlot : string) (d : db)
      (r : availability) (rest : list availability) :
  JS.truthy studentId = true -> JS.truthy roomId = true -> JS.truthy timeSlot = true ->
  isTimeSlotValid clk timeSlot = true ->
  PostBookings.checkSql studentId (clk_today clk) (bookings d) = [] ->
  PostBookings.slotCheckSql roomId (clk_today clk) timeSlot (room_availability d) = [] ->
  PostBookings.statusCheckSql roomId (clk_today clk) timeSlot (room_availability d) = r :: rest ->
  ra_status r = pending ->
  PostBookings.handler no_faults clk studentId roomId timeSlot d
  = (d, Error 400 "Time slot is already pending approval").
Proof.
  intros Hs Hr Ht Hv Hc Hsc Hst Hp. unfold PostBookings.handler, no_faults.
  rewrite Hs, Hr, Ht, Hv, Hc, Hsc, Hst. unfold PostBookings.errorMessage.
  rewrite Hp. reflexivity.
Qed.

(** Callers turned away while the slot is pending leave the store as
    it is. *)
Lemma book_in_turn_pending (roomId timeSlot today : string) (d : db)
      (r : availability) (others : list availability) :
  JS.truthy roomId = true -> JS.truthy timeSlot = true ->
  PostBookings.slotCheckSql roomId today timeSlot (room_availability d) = [] ->
  PostBookings.statusCheckSql roomId today timeSlot (room_availability d) = r :: others ->
  ra_status r = pending ->
  forall callers,
    Forall (fun c => clk_today (fst c) = today /\ isTimeSlotValid (fst c) timeSlot = true /\
                     JS.truthy (snd c) = true /\
                     PostBookings.checkSql (snd c) today (bookings d) = []) callers ->
    book_in_turn roomId timeSlot callers d
    = (d, map (fun _ => Error 400 "Time slot is already pending approval") callers).
Proof.
  intros Hr Ht Hsc Hst Hp callers. induction callers as [|[clk s] rest IH]; intros F.
  - reflexivity.
  - inversion F as [|c cs [Hd [Hv [Hs Hc]]] F']; subst. cbn [fst snd] in *.
    cbn [book_in_turn].
    rewrite (@book_when_pending clk s roomId timeSlot d r others); try assumption.
    rewrite (IH F'). reflexivity.
Qed.

(** C1, as the code has it: when the book calls for a free slot are
    served one after the other, by distinct students none of whom has
    a booking that day, and the store fails nowhere, the first call
    succeeds and each of the others is rejected because the slot is
    already pending.  The update of the slot to pending itself is
    unconditional: it writes the row whatever its status and student
    at the moment of the write. *)
Theorem one_booking_per_slot_in_turn
        (roomId timeSlot today : string) (clk : clock) (studentId : string)
        (others : list (clock * string)) (d : db) :
  JS.truthy roomId = true -> JS.truthy timeSlot = true ->
  PostBookings.slotCheckSql roomId today timeSlot (room_availability d) <> [] ->
  Forall (fun c => clk_today (fst c) = today /\ isTimeSlotValid (fst c) timeSlot = true /\
                   JS.truthy (snd c) = true /\
                   PostBookings.checkSql (snd c) today (bookings d) = [])
         ((clk, studentId) :: others) ->
  NoDup (studentId :: map snd others) ->
  snd (book_in_turn roomId timeSlot ((clk, studentId) :: others) d)
  = BookingCreated ("book_" ++ JS.ofInt (clk_now clk))
      :: map (fun _ => Error 400 "Time slot is already pending approval") others /\
  (forall (t : list availability) (s : string) (r : availability),
      In r (PostBookings.updateSql s roomId today timeSlot t) ->
      of_slot roomId today timeSlot r = true ->
      ra_status r = pending /\ ra_student_id r = Some s).
Proof.
  intros Hr Ht Hfree F Hnd. split; [|intros t s r; apply updateSql_unconditional].
  inversion F as [|c cs [Hd [Hv [Hs Hc]]] F']; subst. cbn [fst snd] in *.
  cbn [book_in_turn].
  rewrite (@book_first clk studentId roomId timeSlot d); try assumption.
  destruct (statusCheck_after_update studentId roomId (clk_today clk) timeSlot
              (room_availability d) Hfree)
    as [r [rest [Hst Hp]]].
  rewrite (@book_in_turn_pending roomId timeSlot (clk_today clk) _ r rest);
    try assumption.
  - reflexivity.
  - apply slotCheck_after_update.
  - inversion Hnd as [|x xs Hnotin Hnd']; subst.
    clear - F' Hnotin. induction F' as [|[clk' s] cs [Hd [Hv [Hs Hc]]] F' IH];
      constructor.
    + cbn [fst snd bookings] in *. repeat split; try assumption.
      unfold PostBookings.bookingSql, PostBookings.checkSql in *.
      rewrite filter_app, Hc. cbn [filter b_student_id b_booking_date app].
      destruct (studentId =? s) eqn:E; [|reflexivity].
      apply String.eqb_eq in E. subst. exfalso. apply Hnotin. now left.
    + apply IH. intros Hin. apply Hnotin. now right.
Qed.

Lemma one_booking_per_slot_in_turn_witness :
  PostBookings.slotCheckSql "R1" "2025-11-07" "08:00-10:00" (room_availability db_free)
  = [slot_of "2025-11-07" "08:00-10:00" free None] /\
  snd (book_in_turn "R1" "08:00-10:00"
         [(morning, "S1"); (later 1 morning, "S2"); (later 2 morning, "S3")] db_free)
  = [BookingCreated "book_1762473600000";
     Error 400 "Time slot is already pending approval";
     Error 400 "Time slot is already pending approval"].
Proof.
  split; [reflexivity|].
  apply (@one_booking_per_slot_in_turn "R1" "08:00-10:00" "2025-11-07" morning "S1"
           [(later 1 morning, "S2"); (later 2 morning, "S3")] db_free);
    try reflexivity.
  - discriminate.
  - repeat constructor.
  - repeat constructor; simpl; intuition discriminate.
Defined.

(** The claim C1 as the spec has it fails once the store calls of two
    requests alternate: both callers find the slot free before either
    writes, both bookings are inserted, both updates are applied (the
    second to a slot that is pending and bound by then), and both
    callers are told that their booking was created. *)
Lemma two_callers_both_succeed :
  PostBookings.slotCheckSql "R1" "2025-11-07" "08:00-10:00" (room_availability db_free)
  = [slot_of "2025-11-07" "08:00-10:00" free None] /\
  map PostBookings.sent
      (snd (PostBookings.interleave [0; 1; 0; 1; 0; 1; 0; 1]%nat two_callers db_free))
  = [Some (BookingCreated "book_1762473600000");
     Some (BookingCreated "book_1762473600001")] /\
  fst (PostBookings.interleave [0; 1; 0; 1; 0; 1; 0; 1]%nat two_callers db_free)
  = Db [room1]
       (today_slots pending (Some "S2"))
       [Booking "book_1762473600000" "S1" "R1" "2025-11-07" "08:00-10:00" "Pending" None None;
        Booking "book_1762473600001" "S2" "R1" "2025-11-07" "08:00-10:00" "Pending" None None].
Proof. repeat split. Qed.

(** ** The decision on a booking *)

Lemma getBookingSql_none (bookingId : string) (t : list booking) :
  PutBookingStatus.getBookingSql bookingId t = [] <->
  forall b, In b t -> b_id b <> bookingId.
Proof.
  unfold PutBookingStatus.getBookingSql. split.
  - intros E b Hin Hid.
    assert (H : In b (filter (fun b => b_id b =? bookingId) t)).
    { apply filter_In. split; [assumption|]. apply String.eqb_eq. assumption. }
    rewrite E in H. destruct H.
  - intros H. destruct (filter _ t) as [|b l] eqn:E; [reflexivity|].
    assert (Hin : In b (b :: l)) by now left.
    rewrite <- E in Hin. apply filter_In in Hin. destruct Hin as [Hin Hid].
    apply String.eqb_eq in Hid. exfalso. exact (H b Hin Hid).
Qed.

Lemma availabilityStatus_cases (status : string) :
  (JS.toLowerCase status = "approved" ->
   PutBookingStatus.availabilityStatus status = reserved) /\
  (JS.toLowerCase status <> "approved" ->
   PutBookingStatus.availabilityStatus status = free).
Proof.
  unfold PutBookingStatus.availabilityStatus. split.
  - intros ->. reflexivity.
  - intros H. apply String.eqb_neq in H. rewrite H. reflexivity.
Qed.

(** C4, as the code has it: provided the lookup of the booking itself
    succeeds, decide is rejected with NotFound if and only if no
    booking has the given id; otherwise, the update of the booking
    being carried out, it sets the status, the approver and the
    decision time of the booking and writes the derived slot status to
    the rows of the booking's room, date and time slot that are bound
    to its student: reserved when the status, in lower case, is
    [approved] (so for [Approved], [approved], [APPROVED]), free for
    anything else.  When the write to the slot fails the booking keeps
    its new status and the call still reports success. *)
Theorem decide_updates_booking_and_slot
        (f : faults) (clk : clock) (bookingId status : string)
        (approvedBy : option string) (d : db) :
  f 0%nat = false ->
  let res := PutBookingStatus.handler f clk bookingId status approvedBy d in
  (snd res = Error 404 "Booking not found" <->
   forall b, In b (bookings d) -> b_id b <> bookingId) /\
  (forall booking rest,
      PutBookingStatus.getBookingSql bookingId (bookings d) = booking :: rest ->
      f 1%nat = false ->
      snd res = SuccessMessage "Booking status updated" /\
      rooms (fst res) = rooms d /\
      Forall2 (fun b b' =>
                 (b_id b = bookingId ->
                  b' = Booking (b_id b) (b_student_id b) (b_room_id b) (b_booking_date b)
                               (b_time_slot b) status approvedBy (Some (clk_now clk))) /\
                 (b_id b <> bookingId -> b' = b))
              (bookings d) (bookings (fst res)) /\
      (f 2%nat = false ->
       Forall2 (fun r r' =>
                  r' = if of_slot (b_room_id booking) (b_booking_date booking)
                                  (b_time_slot booking) r
                          && student_is (b_student_id booking) r
                       then set_status (PutBookingStatus.availabilityStatus status) r
                       else r)
               (room_availability d) (room_availability (fst res))) /\
      (f 2%nat = true -> room_availability (fst res) = room_availability d)) /\
  (JS.toLowerCase status = "approved" ->
   PutBookingStatus.availabilityStatus status = reserved) /\
  (JS.toLowerCase status <> "approved" ->
   PutBookingStatus.availabilityStatus status = free).
Proof.
  intros H0 res. subst res. unfold PutBookingStatus.handler. rewrite H0.
  split; [|split; [|apply availabilityStatus_cases]].
  - rewrite <- getBookingSql_none.
    destruct (PutBookingStatus.getBookingSql bookingId (bookings d)) as [|b l].
    + split; reflexivity.
    + destruct (f 1%nat); split; discriminate.
  - intros booking rest -> H1. rewrite H1. cbn [fst snd].
    split; [reflexivity|]. split; [destruct (f 2%nat); reflexivity|].
    split; [|split].
    + assert (E : bookings (if f 2%nat
                            then with_bookings
                                   (PutBookingStatus.updateBookingSql status approvedBy
                                      (clk_now clk) bookingId (bookings d)) d
                            else with_availability
                                   (PutBookingStatus.updateAvailabilitySql
                                      (PutBookingStatus.availabilityStatus status)
                                      (b_room_id booking) (b_booking_date booking)
                                      (b_time_slot booking) (b_student_id booking)
                                      (room_availability
                                         (with_bookings
                                            (PutBookingStatus.updateBookingSql status approvedBy
                                               (clk_now clk) bookingId (bookings d)) d)))
                                   (with_bookings
                                      (PutBookingStatus.updateBookingSql status approvedBy
                                         (clk_now clk) bookingId (bookings d)) d))
                  = PutBookingStatus.updateBookingSql status approvedBy
                      (clk_now clk) bookingId (bookings d))
        by (destruct (f 2%nat); reflexivity).
      rewrite E. unfold PutBookingStatus.updateBookingSql.
      eapply Forall2_impl; [|apply update_pointwise].
      cbn beta. intros b b' ->. split.
      * intros ->. rewrite String.eqb_refl. reflexivity.
      * intros Hne. apply String.eqb_neq in Hne. rewrite Hne. reflexivity.
    + intros ->. cbn [room_availability with_availability with_bookings].
      apply update_pointwise.
    + intros ->. reflexivity.
Qed.

Lemma decide_updates_booking_and_slot_witness :
  no_faults 0%nat = false /\
  PutBookingStatus.handler no_faults (later 60000 morning) "book_1762473600000" "Approved"
                           (Some "L1") db_pending
  = (Db [room1] (today_slots reserved (Some "S1"))
        [Booking "book_1762473600000" "S1" "R1" "2025-11-07" "08:00-10:00" "Approved"
                 (Some "L1") (Some 1762473660000%Z)],
     SuccessMessage "Booking status updated") /\
  PutBookingStatus.availabilityStatus "Approved" = reserved.
Proof.
  split; [reflexivity|]. split; [reflexivity|].
  apply (decide_updates_booking_and_slot no_faults (later 60000 morning)
           "book_1762473600000" "Approved" (Some "L1") db_pending);
    reflexivity.
Defined.

(** The claim C4 as the spec has it fails on a decision whose status
    is not [Approved] but is [approved] once in lower case: the slot
    is reserved, not freed. *)
Lemma decide_reserves_on_lower_case_approved :
  ("approved" =? "Approved") = false /\
  PutBookingStatus.handler no_faults (later 60000 morning) "book_1762473600000" "approved"
                           (Some "L1") db_pending
  = (Db [room1] (today_slots reserved (Some "S1"))
        [Booking "book_1762473600000" "S1" "R1" "2025-11-07" "08:00-10:00" "approved"
                 (Some "L1") (Some 1762473660000%Z)],
     SuccessMessage "Booking status updated").
Proof. split; reflexivity. Qed.

(** ** Occupied slots and the ledger *)

Lemma of_slot_true (roomId date timeSlot : string) (r : availability) :
  of_slot roomId date timeSlot r = true <->
  ra_room_id r = roomId /\ ra_availability_date r = date /\ ra_time_slot r = timeSlot.
Proof.
  unfold of_slot, of_room_date. rewrite !andb_true_iff, !String.eqb_eq. tauto.
Qed.







Lemma ledger_app (bs : list booking) (b : booking) :
  forall b0, In b0 bs -> exists b', In b' (bs ++ [b]) /\ same_booking_key b0 b'.
Proof.
  intros b0 Hin. exists b0. split; [apply in_or_app; now left|]. repeat split.
Qed.

Lemma ledger_decided (status : string) (approvedBy : option string) (now : Z)
      (bookingId : string) (bs : list booking) :
  forall b0, In b0 bs ->
    exists b', In b' (PutBookingStatus.updateBookingSql status approvedBy now bookingId bs) /\
               same_booking_key b0 b'.
Proof.
  intros b0 Hin. unfold PutBookingStatus.updateBookingSql.
  eexists. split; [apply in_update; exists b0; split; [exact Hin | reflexivity]|].
  destruct (b_id b0 =? bookingId); repeat split.
Qed.

Lemma rollback_fresh (bookingId : string) (bs : list booking) (b : booking) :
  existsb (fun b0 => b_id b0 =? bookingId) bs = false -> b_id b = bookingId ->
  PostBookings.rollbackSql bookingId (bs ++ [b]) = bs.
Proof.
  intros Hfresh Hid. unfold PostBookings.rollbackSql, delete.
  rewrite filter_app. cbn [filter]. rewrite Hid, String.eqb_refl. cbn [negb].
  rewrite app_nil_r. apply forallb_filter_id. apply forallb_forall. intros b0 Hin.
  destruct (b_id b0 =? bookingId) eqn:E; [|reflexivity].
  assert (H : existsb (fun b0 => b_id b0 =? bookingId) bs = true)
    by (apply existsb_exists; exists b0; split; assumption).
  congruence.
Qed.

Lemma insertSlots_adds (f : faults) (roomId date : string) (labels : list string) :
  forall k t, exists added,
    PostRooms.insertSlots f k roomId date labels t = (t ++ added)%list /\
    Forall (fun r => ra_status r = free) added.
Proof.
  induction labels as [|slot rest IH]; intros k t; cbn [PostRooms.insertSlots].
  - exists []. rewrite app_nil_r. split; constructor.
  - destruct (f k).
    + apply IH.
    + unfold PostRooms.slotSql.
      destruct (insert_slot_adds slot roomId date t) as [a1 [E1 F1]].
      destruct (IH (S k) (insert_slot slot roomId date t)) as [a2 [E2 F2]].
      exists (a1 ++ a2)%list. rewrite E2, E1, app_assoc. split; [reflexivity|].
      apply Forall_app. split; [|assumption].
      eapply Forall_impl; [|exact F1]. intros r Hr. apply Hr.
Qed.











(** *** The status of the booking of an occupied slot *)

Ltac by_cases :=
  repeat match goal with
         | |- context [if ?b then _ else _] => destruct b
         | |- context [match ?x with _ => _ end] => destruct x
         end.

















(** ** The single-statement materialisation *)

Lemma insert_each_adds (roomId date : string) (labels : list string) :
  forall t, exists added,
    fold_left (fun acc slot => insert_slot slot roomId date acc) labels t = (t ++ added)%list /\
    Forall (fresh_slot roomId date labels) added /\
    forall slot, In slot labels ->
      exists r, In r (t ++ added)%list /\ of_slot roomId date slot r = true.
Proof.
  induction labels as [|slot rest IH]; intros t; cbn [fold_left].
  - exists []. rewrite app_nil_r. split; [reflexivity|]. split; [constructor|].
    intros ? [].
  - destruct (insert_slot_adds slot roomId date t) as [a1 [E1 F1]].
    destruct (IH (insert_slot slot roomId date t)) as [a2 [E2 [F2 P2]]].
    exists (a1 ++ a2)%list. rewrite E2, E1, app_assoc. split; [reflexivity|]. split.
    + apply Forall_app. split.
      * eapply Forall_impl; [|exact F1]. intros r. apply fresh_slot_weaken.
        intros x [<- | []]. now left.
      * eapply Forall_impl; [|exact F2]. intros r. apply fresh_slot_weaken.
        intros x Hx. now right.
    + intros s [<- | Hin].
      * destruct (insert_slot_present slot roomId date t) as [r [Hr Ho]].
        exists r. split; [|assumption]. rewrite E1 in Hr.
        apply in_or_app. now left.
      * rewrite E1 in P2. exact (P2 s Hin).
Qed.

(** In [src/unnamed/part_000] the same route is all or nothing: the
    slots that exist are returned as they are; otherwise the four
    labels go into one statement, after which either every label has
    its row, or the statement failed, an error is raised and no row
    was added. *)
Lemma single_statement_all_or_nothing (f : faults) (clk : clock) (roomId : string) (d : db) :
  f 0%nat = false ->
  let today := clk_today clk in
  let existing := GetTimeSlotsSingle.sql roomId today (room_availability d) in
  let res := GetTimeSlotsSingle.handler f clk roomId d in
  (existing <> [] -> res = (d, Slots existing)) /\
  (existing = [] -> f 1%nat = true -> res = (d, Error 500 "Failed to create time slots")) /\
  (existing = [] -> f 1%nat = false ->
   (exists added,
       room_availability (fst res) = (room_availability d ++ added)%list /\
       Forall (fresh_slot roomId today timeSlots) added) /\
   (forall slot, In slot timeSlots ->
      exists r, In r (room_availability (fst res)) /\ of_slot roomId today slot r = true) /\
   (f 2%nat = false ->
    snd res = Slots (GetTimeSlotsSingle.sql roomId today (room_availability (fst res))))).
Proof.
  intros H0 today existing res. subst res existing.
  unfold GetTimeSlotsSingle.handler. rewrite H0. fold today.
  destruct (GetTimeSlotsSingle.sql roomId today (room_availability d)) as [|v vs].
  2: { split; [reflexivity|]. split; discriminate. }
  split; [congruence|]. split; [intros _ ->; reflexivity|]. intros _ ->.
  unfold GetTimeSlotsSingle.insertSql.
  destruct (insert_each_adds roomId today timeSlots (room_availability d))
    as [added [E [F P]]].
  rewrite E.
  match goal with
  | |- context [fst ?e] =>
      assert (Hd : fst e = with_availability (room_availability d ++ added) d)
        by (destruct (f 2%nat); reflexivity)
  end.
  rewrite Hd. cbn [room_availability with_availability].
  split; [exists added; split; [reflexivity | assumption]|].
  split; [exact P|]. intros ->. reflexivity.
Qed.

(* ================================================================== *)
(** * Part III: further properties of the code *)
(* ================================================================== *)

(** ** Time slots and the clock *)

Lemma split_length (sep : ascii) (s : string) :
  (1 <= length (JS.split sep s))%nat.
Proof.
  induction s as [|c s IH]; simpl; [lia|].
  destruct (Ascii.eqb c sep); simpl; [lia|].
  destruct (JS.split sep s); simpl in *; lia.
Qed.

Lemma split_hyphens (s : string) :
  length (JS.split "-" s) = S (hyphens s).
Proof.
  induction s as [|c s IH]; [reflexivity|].
  cbn [JS.split hyphens]. destruct (Ascii.eqb c "-").
  - cbn [length]. now rewrite IH.
  - destruct (JS.split "-" s) as [|p ps]; [discriminate|].
    cbn [length] in *. exact IH.
Qed.

(** A label that does not have exactly one hyphen is never a valid
    slot, at any time: the check answers false and nothing is parsed. *)
Theorem malformed_label_is_never_valid (clk : clock) (timeSlot : string) :
  hyphens timeSlot <> 1%nat -> isTimeSlotValid clk timeSlot = false.
Proof.
  intros H. unfold isTimeSlotValid.
  pose proof (split_hyphens timeSlot) as L.
  destruct (JS.split "-" timeSlot) as [|a [|b [|c l]]]; try reflexivity.
  cbn [length] in L. exfalso. apply H. lia.
Qed.

Lemma malformed_label_is_never_valid_witness :
  hyphens "08:00" <> 1%nat /\ hyphens "08:00-10:00-12:00" <> 1%nat /\
  isTimeSlotValid morning "08:00" = false /\
  isTimeSlotValid morning "08:00-10:00-12:00" = false.
Proof.
  split; [discriminate|]. split; [discriminate|]. split.
  - apply (malformed_label_is_never_valid morning "08:00"). discriminate.
  - apply (malformed_label_is_never_valid morning "08:00-10:00-12:00"). discriminate.
Defined.

(** Within one local day time only closes slots: a slot that is valid
    at some moment was valid at every earlier moment of that day. *)
Theorem slot_validity_only_ends (clk clk' : clock) (timeSlot : string) :
  (clk_localTime clk / msPerDay = clk_localTime clk' / msPerDay)%Z ->
  (clk_localTime clk <= clk_localTime clk')%Z ->
  isTimeSlotValid clk' timeSlot = true -> isTimeSlotValid clk timeSlot = true.
Proof.
  intros Hday Hle. unfold isTimeSlotValid.
  destruct (JS.split "-" timeSlot) as [|a [|endTime [|c l]]]; try discriminate.
  destruct (JS.split ":" endTime) as [|endHour [|endMinute l]]; try discriminate.
  destruct (JS.parseInt endHour) as [h|]; [|discriminate].
  destruct (JS.parseInt endMinute) as [m|]; [|discriminate].
  rewrite Hday. rewrite !Z.ltb_lt. intros H.
  eapply Z.le_lt_trans; eassumption.
Qed.

Lemma slot_validity_only_ends_witness :
  (clk_localTime morning / msPerDay
   = clk_localTime (later (2 * msPerHour) morning) / msPerDay)%Z /\
  isTimeSlotValid (later (2 * msPerHour) morning) "08:00-10:00" = true /\
  isTimeSlotValid morning "08:00-10:00" = true.
Proof.
  split; [reflexivity|]. split; [reflexivity|].
  apply (slot_validity_only_ends morning (later (2 * msPerHour) morning) "08:00-10:00");
    [reflexivity | discriminate | reflexivity].
Defined.

(** Each configured slot is open exactly until its end: it is valid
    if and only if the local time of day is before 10:00, 12:00, 15:00
    and 17:00 respectively. *)
Theorem configured_slot_open_until_end (clk : clock) (timeSlot : string) :
  In timeSlot timeSlots ->
  isTimeSlotValid clk timeSlot
  = (clk_localTime clk mod msPerDay <? endMinutes timeSlot * msPerMinute)%Z.
Proof.
  intros Hin.
  assert (E : forall e, (clk_localTime clk <? clk_localTime clk / msPerDay * msPerDay + e)%Z
                        = (clk_localTime clk mod msPerDay <? e)%Z).
  { intros e. unfold msPerDay.
    pose proof (Z.div_mod (clk_localTime clk) 86400000) as D.
    destruct (Z.ltb_spec (clk_localTime clk mod 86400000) e);
      [apply Z.ltb_lt | apply Z.ltb_ge]; lia. }
  cbn in Hin. destruct Hin as [<- | [<- | [<- | [<- | []]]]];
    cbv [isTimeSlotValid]; cbn -[Z.ltb Z.div Z.mul Z.add Z.modulo msPerDay];
    repeat match goal with
           | |- context [JS.parseInt ?s] =>
               let v := eval vm_compute in (JS.parseInt s) in
               change (JS.parseInt s) with v
           end;
    cbv iota; rewrite <- Z.add_assoc, E; f_equal.
Qed.

Lemma configured_slot_open_until_end_witness :
  In "13:00-15:00" timeSlots /\
  isTimeSlotValid (later (8 * msPerHour) morning) "13:00-15:00" = false /\
  isTimeSlotValid (later (8 * msPerHour - 1) morning) "13:00-15:00"
  = (clk_localTime (later (8 * msPerHour - 1) morning) mod msPerDay
     <? endMinutes "13:00-15:00" * msPerMinute)%Z.
Proof.
  split; [cbn; tauto|]. split; [reflexivity|].
  apply (configured_slot_open_until_end (later (8 * msPerHour - 1) morning) "13:00-15:00").
  cbn. tauto.
Defined.

(** ** The listing of a room's slots *)

Lemma insert_by_time_slot_sorted (r : availability) (t : list availability) :
  Sorted by_time_slot t -> Sorted by_time_slot (insert_by_time_slot r t).
Proof.
  induction t as [|a t IH]; intros S; cbn [insert_by_time_slot].
  - repeat constructor.
  - destruct (ra_time_slot r <=? ra_time_slot a)%string eqn:E.
    + constructor; [assumption|]. constructor. exact E.
    + apply Sorted_inv in S. destruct S as [S H].
      assert (Ear : by_time_slot a r).
      { destruct (String.leb_total (ra_time_slot r) (ra_time_slot a)) as [L | L];
          [congruence | exact L]. }
      constructor; [apply IH; assumption|].
      destruct t as [|b t]; cbn [insert_by_time_slot].
      * constructor. exact Ear.
      * destruct (ra_time_slot r <=? ra_time_slot b)%string.
        -- constructor. exact Ear.
        -- constructor. inversion H. assumption.
Qed.

Lemma order_by_time_slot_sorted (t : list availability) :
  Sorted by_time_slot (order_by_time_slot t).
Proof.
  induction t as [|a t IH]; [constructor|].
  cbn [order_by_time_slot fold_right]. apply insert_by_time_slot_sorted. exact IH.
Qed.

Lemma leb_trans (a b c : string) :
  (a <=? b)%string = true -> (b <=? c)%string = true -> (a <=? c)%string = true.
Proof.
  unfold String.leb.
  destruct (String.compare a b) eqn:AB; [| |discriminate];
    destruct (String.compare b c) eqn:BC; try discriminate; intros _ _.
  - apply String.compare_eq_iff in AB. subst b. now rewrite BC.
  - apply String.compare_eq_iff in AB. subst b. now rewrite BC.
  - apply String.compare_eq_iff in BC. subst c. now rewrite AB.
  - apply OrderedTypeEx.String_as_OT.cmp_lt in AB, BC.
    pose proof (OrderedTypeEx.String_as_OT.lt_trans _ _ _ AB BC) as AC.
    apply OrderedTypeEx.String_as_OT.cmp_lt in AC.
    unfold OrderedTypeEx.String_as_OT.cmp in AC. now rewrite AC.
Qed.

Lemma filter_sorted (p : availability -> bool) (t : list availability) :
  Sorted by_time_slot t -> Sorted by_time_slot (filter p t).
Proof.
  intros S. apply StronglySorted_Sorted.
  assert (SS : StronglySorted by_time_slot t).
  { apply Sorted_StronglySorted; [|exact S].
    intros x y z. unfold by_time_slot. apply leb_trans. }
  clear S. induction SS as [|a t SS IH F]; cbn [filter]; [constructor|].
  destruct (p a); [|exact IH].
  constructor; [exact IH|].
  apply Forall_forall. intros x Hx. apply filter_In in Hx.
  rewrite Forall_forall in F. apply F. apply Hx.
Qed.

Lemma filter_perm (p : availability -> bool) (t t' : list availability) :
  Permutation t t' -> Permutation (filter p t) (filter p t').
Proof.
  induction 1 as [|x l l' H IH|x y l|l l' l'' H1 IH1 H2 IH2]; cbn [filter].
  - constructor.
  - destruct (p x); [constructor|]; exact IH.
  - destruct (p x), (p y); try reflexivity. apply perm_swap.
  - now transitivity (filter p l').
Qed.

Lemma filter_both (p q : availability -> bool) (t : list availability) :
  filter p (filter q t) = filter (fun r => q r && p r) t.
Proof.
  induction t as [|a t IH]; [reflexivity|]. cbn [filter].
  destruct (q a); cbn [filter andb]; [destruct (p a)|]; now rewrite IH.
Qed.

(** What the route lists is what the store holds when it answers:
    whenever the answer is a list of slots, under any faults, it holds
    exactly the rows of that room and day whose slot has not ended,
    the rows just inserted among them, each as often as the table has
    it, in the order of their labels. *)
Theorem slot_listing_shows_open_slots
        (f : faults) (clk : clock) (roomId : string) (d : db) (rows : list availability) :
  snd (GetTimeSlots.handler f clk roomId d) = Slots rows ->
  Permutation rows
    (filter (fun r => of_room_date roomId (clk_today clk) r && open_now clk r)
            (room_availability (fst (GetTimeSlots.handler f clk roomId d)))) /\
  Sorted by_time_slot rows.
Proof.
  intros Hrows.
  assert (E : rows = filter (open_now clk)
                       (GetTimeSlots.sql roomId (clk_today clk)
                          (room_availability (fst (GetTimeSlots.handler f clk roomId d))))).
  { revert Hrows. unfold GetTimeSlots.handler.
    change (fun slot : availability => isTimeSlotValid clk (ra_time_slot slot))
      with (open_now clk).
    destruct (f 0%nat); [discriminate|].
    destruct (filter (open_now clk)
                (GetTimeSlots.sql roomId (clk_today clk) (room_availability d)))
      as [|v vs] eqn:Ev.
    2: { cbn [fst snd]. rewrite Ev. congruence. }
    destruct (filter (isTimeSlotValid clk) timeSlots) as [|l ls].
    - cbn [fst snd]. rewrite Ev. congruence.
    - destruct (GetTimeSlots.insertAll f 1 roomId (clk_today clk) (l :: ls)
                  (room_availability d)) as [t errors].
      destruct (0 <? errors)%nat; [discriminate|].
      destruct (f (S (length (l :: ls)))); [discriminate|].
      cbn [fst snd room_availability with_availability]. congruence. }
  rewrite E. split.
  - unfold GetTimeSlots.sql. rewrite <- filter_both.
    apply filter_perm. apply order_by_time_slot_perm.
  - apply filter_sorted. apply order_by_time_slot_sorted.
Qed.

Lemma slot_listing_shows_open_slots_witness :
  snd (GetTimeSlots.handler no_faults (later (4 * msPerHour) morning) "R1" db_free)
  = Slots [slot_of "2025-11-07" "10:00-12:00" free None;
           slot_of "2025-11-07" "13:00-15:00" free None;
           slot_of "2025-11-07" "15:00-17:00" free None] /\
  Permutation
    [slot_of "2025-11-07" "10:00-12:00" free None;
     slot_of "2025-11-07" "13:00-15:00" free None;
     slot_of "2025-11-07" "15:00-17:00" free None]
    (filter (fun r => of_room_date "R1" "2025-11-07" r
                      && open_now (later (4 * msPerHour) morning) r)
            (room_availability db_free)) /\
  Sorted by_time_slot
    [slot_of "2025-11-07" "10:00-12:00" free None;
     slot_of "2025-11-07" "13:00-15:00" free None;
     slot_of "2025-11-07" "15:00-17:00" free None].
Proof.
  split; [reflexivity|].
  apply (slot_listing_shows_open_slots no_faults (later (4 * msPerHour) morning) "R1" db_free).
  reflexivity.
Defined.

Lemma insertAll_no_faults (roomId date : string) (labels : list string) (k : nat)
      (t : list availability) :
  snd (GetTimeSlots.insertAll no_faults k roomId date labels t) = 0%nat /\
  forall slot, In slot labels ->
    exists r, In r (fst (GetTimeSlots.insertAll no_faults k roomId date labels t)) /\
              of_slot roomId date slot r = true.
Proof. apply insertAll_complete. reflexivity. Qed.

(** Asking for the slots of a room a second time, the store failing
    nowhere and the clock unmoved, changes nothing and gives the same
    answer: the materialisation is idempotent. *)
Theorem materialisation_idempotent (clk : clock) (roomId : string) (d : db) :
  GetTimeSlots.handler no_faults clk roomId
    (fst (GetTimeSlots.handler no_faults clk roomId d))
  = GetTimeSlots.handler no_faults clk roomId d.
Proof.
  unfold GetTimeSlots.handler at 2 3. cbn [no_faults].
  change (fun slot : availability => isTimeSlotValid clk (ra_time_slot slot)) with (open_now clk).
  remember (filter (isTimeSlotValid clk) timeSlots) as labels eqn:Hl.
  destruct (filter (open_now clk) (GetTimeSlots.sql roomId (clk_today clk) (room_availability d)))
    as [|v vs] eqn:Ev.
  2: { cbn [fst]. unfold GetTimeSlots.handler. cbn [no_faults].
       change (fun slot : availability => isTimeSlotValid clk (ra_time_slot slot))
         with (open_now clk).
       rewrite Ev. reflexivity. }
  destruct labels as [|l ls] eqn:El.
  - cbn [fst]. unfold GetTimeSlots.handler. cbn [no_faults].
    change (fun slot : availability => isTimeSlotValid clk (ra_time_slot slot))
      with (open_now clk).
    rewrite Ev, <- Hl. reflexivity.
  - assert (Hl0 : In l labels) by (rewrite El; now left).
    rewrite <- El in *. clear El.
    destruct (insertAll_no_faults roomId (clk_today clk) labels 1 (room_availability d))
      as [E0 P].
    destruct (GetTimeSlots.insertAll no_faults 1 roomId (clk_today clk) labels
                (room_availability d)) as [t errors] eqn:Ei.
    cbn [fst snd] in E0, P. subst errors. cbn [Nat.ltb Nat.leb fst].
    destruct (P l Hl0) as [r [Hin Hr]].
    assert (Hopen : In r (filter (open_now clk) (GetTimeSlots.sql roomId (clk_today clk) t))).
    { apply filter_In. split.
      - apply in_sql. split; [assumption|].
        unfold of_slot in Hr. apply andb_true_iff in Hr. apply Hr.
      - apply of_slot_true in Hr. destruct Hr as [_ [_ Hr]].
        unfold open_now. rewrite Hr.
        assert (Hf : In l (filter (isTimeSlotValid clk) timeSlots))
          by (rewrite <- Hl; exact Hl0).
        apply filter_In in Hf. apply Hf. }
    unfold GetTimeSlots.handler. cbn [no_faults room_availability with_availability].
    change (fun slot : availability => isTimeSlotValid clk (ra_time_slot slot))
      with (open_now clk).
    destruct (filter (open_now clk) (GetTimeSlots.sql roomId (clk_today clk) t));
      [destruct Hopen | reflexivity].
Qed.

(** ** The ledger *)

(** Only book and decide ever write the ledger: every other operation,
    whatever fails in it, leaves the bookings exactly as they are. *)
Theorem ledger_written_by_book_and_decide_only
        (f : faults) (clk : clock) (rq : request) (d : db) :
  writes_ledger rq = false -> bookings (serve f clk rq d) = bookings d.
Proof.
  intros H. destruct rq; try discriminate; cbn [serve].
  - unfold resetRoomStatuses. by_cases; reflexivity.
  - unfold GetTimeSlots.handler. by_cases; reflexivity.
  - unfold PostRooms.handler. by_cases; reflexivity.
  - unfold PutRoom.handler. by_cases; reflexivity.
  - unfold PatchRoomDisable.handler. by_cases; reflexivity.
  - unfold PatchRoomEnable.handler. by_cases; reflexivity.
  - unfold PatchSlotDisable.handler. by_cases; reflexivity.
  - unfold PatchSlotEnable.handler. by_cases; reflexivity.
Qed.

Lemma ledger_written_by_book_and_decide_only_witness :
  writes_ledger (PatchRoomDisable "R1") = false /\
  bookings (serve no_faults morning (PatchRoomDisable "R1") db_pending) = [booking1].
Proof.
  split; [reflexivity|].
  apply (ledger_written_by_book_and_decide_only no_faults morning
           (PatchRoomDisable "R1") db_pending).
  reflexivity.
Defined.

(** A booking is created only for a slot that was found free and
    unbound, still open, by a student without a booking that day; the
    call then appends one Pending booking and sets every row of the
    slot to pending, bound to that student. *)
Theorem booking_created_only_for_free_slot
        (f : faults) (clk : clock) (studentId roomId timeSlot : string) (d : db)
        (bookingId : string) :
  snd (PostBookings.handler f clk studentId roomId timeSlot d) = BookingCreated bookingId ->
  bookingId = "book_" ++ JS.ofInt (clk_now clk) /\
  isTimeSlotValid clk timeSlot = true /\
  PostBookings.checkSql studentId (clk_today clk) (bookings d) = [] /\
  (exists r, In r (room_availability d) /\
             of_slot roomId (clk_today clk) timeSlot r = true /\
             ra_status r = free /\ unbound r = true) /\
  fst (PostBookings.handler f clk studentId roomId timeSlot d)
  = Db (rooms d)
       (PostBookings.updateSql studentId roomId (clk_today clk) timeSlot (room_availability d))
       (PostBookings.bookingSql bookingId studentId roomId (clk_today clk) timeSlot
                                (bookings d)).
Proof.
  unfold PostBookings.handler.
  destruct (negb (JS.truthy studentId) || negb (JS.truthy roomId) || negb (JS.truthy timeSlot));
    [discriminate|].
  destruct (isTimeSlotValid clk timeSlot); [|discriminate]. cbn [negb].
  destruct (f 0%nat); [discriminate|].
  destruct (PostBookings.checkSql studentId (clk_today clk) (bookings d)); [|discriminate].
  destruct (f 1%nat); [discriminate|].
  destruct (PostBookings.slotCheckSql roomId (clk_today clk) timeSlot (room_availability d))
    as [|r l] eqn:E.
  - destruct (f 2%nat); [discriminate|].
    destruct (PostBookings.statusCheckSql roomId (clk_today clk) timeSlot (room_availability d));
      discriminate.
  - destruct (f 3%nat); [discriminate|]. destruct (f 4%nat); [discriminate|].
    cbn [fst snd]. intros H. injection H as <-.
    repeat split. exists r.
    assert (Hin : In r (PostBookings.slotCheckSql roomId (clk_today clk) timeSlot
                          (room_availability d))) by (rewrite E; now left).
    unfold PostBookings.slotCheckSql in Hin. apply filter_In in Hin.
    destruct Hin as [Hin Hc]. apply andb_true_iff in Hc. destruct Hc as [Hc Hu].
    apply andb_true_iff in Hc. destruct Hc as [Hk Hs]. apply status_eqb_eq in Hs. auto.
Qed.

Lemma booking_created_only_for_free_slot_witness :
  snd (PostBookings.handler no_faults morning "S1" "R1" "08:00-10:00" db_free)
  = BookingCreated "book_1762473600000" /\
  fst (PostBookings.handler no_faults morning "S1" "R1" "08:00-10:00" db_free) = db_pending /\
  PostBookings.checkSql "S1" (clk_today morning) (bookings db_free) = [].
Proof.
  split; [reflexivity|]. split; [reflexivity|].
  apply (booking_created_only_for_free_slot no_faults morning "S1" "R1" "08:00-10:00"
           db_free "book_1762473600000").
  reflexivity.
Defined.

(** A book call that is turned away never touches a slot or a room;
    and unless it was the update of the slot that failed, it leaves
    the whole store as it found it. *)
Theorem rejected_booking_changes_no_slot
        (f : faults) (clk : clock) (studentId roomId timeSlot : string) (d : db)
        (code : nat) (error : string) :
  snd (PostBookings.handler f clk studentId roomId timeSlot d) = Error code error ->
  room_availability (fst (PostBookings.handler f clk studentId roomId timeSlot d))
  = room_availability d /\
  rooms (fst (PostBookings.handler f clk studentId roomId timeSlot d)) = rooms d /\
  (error <> "Booking update failed" ->
   fst (PostBookings.handler f clk studentId roomId timeSlot d) = d).
Proof.
  unfold PostBookings.handler.
  destruct (negb (JS.truthy studentId) || negb (JS.truthy roomId) || negb (JS.truthy timeSlot));
    [auto|].
  destruct (negb (isTimeSlotValid clk timeSlot)); [auto|].
  destruct (f 0%nat); [auto|].
  destruct (PostBookings.checkSql studentId (clk_today clk) (bookings d)); [|auto].
  destruct (f 1%nat); [auto|].
  destruct (PostBookings.slotCheckSql roomId (clk_today clk) timeSlot (room_availability d)).
  - destruct (f 2%nat); [auto|].
    destruct (PostBookings.statusCheckSql roomId (clk_today clk) timeSlot (room_availability d));
      auto.
  - destruct (f 3%nat); [auto|]. destruct (f 4%nat); [|discriminate].
    cbn [fst snd]. intros H. injection H as <- <-.
    destruct (f 5%nat); repeat split; congruence.
Qed.

Lemma rejected_booking_changes_no_slot_witness :
  snd (PostBookings.handler no_faults morning "S2" "R1" "08:00-10:00" db_pending)
  = Error 400 "Time slot is already pending approval" /\
  fst (PostBookings.handler no_faults morning "S2" "R1" "08:00-10:00" db_pending) = db_pending.
Proof.
  split; [reflexivity|].
  apply (rejected_booking_changes_no_slot no_faults morning "S2" "R1" "08:00-10:00"
           db_pending 400 "Time slot is already pending approval");
    [reflexivity | discriminate].
Defined.

(** *** What stays in the ledger *)

Lemma checkSql_some (studentId today : string) (bs : list booking) :
  PostBookings.checkSql studentId today bs <> [] <->
  exists b, In b bs /\ booking_day b = (studentId, today).
Proof.
  unfold PostBookings.checkSql, booking_day. split.
  - destruct (filter _ bs) as [|b l] eqn:E; [congruence|]. intros _.
    assert (Hin : In b (b :: l)) by now left.
    rewrite <- E in Hin. apply filter_In in Hin. destruct Hin as [Hin Hc].
    apply andb_true_iff in Hc. destruct Hc as [H1 H2].
    apply String.eqb_eq in H1, H2. exists b. split; [assumption | congruence].
  - intros [b [Hin Hk]] E. injection Hk as H1 H2.
    assert (Hf : In b (filter (fun b => (b_student_id b =? studentId)
                                        && (b_booking_date b =? today)) bs)).
    { apply filter_In. split; [assumption|]. rewrite H1, H2, !String.eqb_refl. reflexivity. }
    rewrite E in Hf. destruct Hf.
Qed.

Lemma serve_keeps_ledger (f : faults) (clk : clock) (rq : request) (d : db) :
  identity_kept f clk rq d ->
  forall b, In b (bookings d) ->
    exists b', In b' (bookings (serve f clk rq d)) /\ same_booking_key b b'.
Proof.
  intros Hid b Hin.
  assert (Hsame : exists b', In b' (bookings d) /\ same_booking_key b b')
    by (exists b; split; [assumption | repeat split]).
  destruct rq; cbn [serve];
    try (unfold resetRoomStatuses, GetTimeSlots.handler, PostRooms.handler, PutRoom.handler,
           PatchRoomDisable.handler, PatchRoomEnable.handler, PatchSlotDisable.handler,
           PatchSlotEnable.handler;
         by_cases; exact Hsame).
  - unfold PostBookings.handler.
    destruct (negb (JS.truthy studentId) || negb (JS.truthy roomId) || negb (JS.truthy timeSlot));
      [assumption|].
    destruct (negb (isTimeSlotValid clk timeSlot)); [assumption|].
    destruct (f 0%nat); [assumption|].
    destruct (PostBookings.checkSql studentId (clk_today clk) (bookings d)); [|assumption].
    destruct (f 1%nat); [assumption|].
    destruct (PostBookings.slotCheckSql roomId (clk_today clk) timeSlot (room_availability d)).
    + destruct (f 2%nat); [assumption|].
      destruct (PostBookings.statusCheckSql roomId (clk_today clk) timeSlot
                  (room_availability d)); assumption.
    + destruct (f 3%nat) eqn:F3; [assumption|].
      destruct (f 4%nat).
      * destruct (f 5%nat); cbn [fst bookings with_bookings].
        -- apply ledger_app. assumption.
        -- unfold PostBookings.bookingSql. rewrite rollback_fresh; [assumption | | reflexivity].
           cbn [identity_kept] in Hid.
           destruct (existsb _ (bookings d)); [|reflexivity].
           rewrite Hid in F3 by reflexivity. discriminate.
      * cbn [fst bookings with_bookings with_availability]. apply ledger_app. assumption.
  - unfold PutBookingStatus.handler.
    destruct (f 0%nat); [assumption|].
    destruct (PutBookingStatus.getBookingSql bookingId (bookings d)); [assumption|].
    destruct (f 1%nat); [assumption|].
    cbn [fst]. destruct (f 2%nat); cbn [bookings with_bookings with_availability];
      apply ledger_decided; assumption.
Qed.

Lemma reachable_keeps_ledger (d d' : db) :
  reachable d d' ->
  forall b, In b (bookings d) -> exists b', In b' (bookings d') /\ same_booking_key b b'.
Proof.
  induction 1 as [|f clk rq d' Hreach IH Hid]; intros b Hin.
  - exists b. split; [assumption | repeat split].
  - destruct (IH b Hin) as [b1 [H1 [K1 [K2 [K3 K4]]]]].
    destruct (serve_keeps_ledger f clk rq d' Hid b1 H1) as [b2 [H2 [L1 [L2 [L3 L4]]]]].
    exists b2. split; [assumption|]. unfold same_booking_key. repeat split; congruence.
Qed.

(** The daily limit counts every booking, whatever became of it: once
    a student has a booking for a day, no later operation removes it,
    be it a rejection, and every further book call of that student on
    that day is turned away with the one-slot-per-day error. *)
Theorem daily_limit_outlasts_decisions
        (d d' : db) (f : faults) (clk : clock) (studentId roomId timeSlot : string) :
  PostBookings.checkSql studentId (clk_today clk) (bookings d) <> [] ->
  reachable d d' ->
  JS.truthy studentId = true -> JS.truthy roomId = true -> JS.truthy timeSlot = true ->
  isTimeSlotValid clk timeSlot = true -> f 0%nat = false ->
  PostBookings.handler f clk studentId roomId timeSlot d'
  = (d', Error 400 "You can only book one slot per day").
Proof.
  intros Hhas Hreach Hs Hr Ht Hv H0.
  assert (Hstill : PostBookings.checkSql studentId (clk_today clk) (bookings d') <> []).
  { apply checkSql_some in Hhas. destruct Hhas as [b [Hin Hk]].
    destruct (reachable_keeps_ledger d d' Hreach b Hin) as [b' [Hin' [_ [K2 [_ K4]]]]].
    apply checkSql_some. exists b'. split; [assumption|].
    unfold booking_day in *. congruence. }
  unfold PostBookings.handler. rewrite Hs, Hr, Ht, Hv, H0. cbn [negb orb].
  destruct (PostBookings.checkSql studentId (clk_today clk) (bookings d'));
    [congruence | reflexivity].
Qed.

Lemma daily_limit_outlasts_decisions_witness :
  reachable db_booked db_rejected /\
  map b_status (bookings db_rejected) = ["Rejected"] /\
  PostBookings.handler no_faults (later 120000 morning) "S1" "R1" "10:00-12:00" db_rejected
  = (db_rejected, Error 400 "You can only book one slot per day").
Proof.
  assert (R : reachable db_booked db_rejected)
    by (apply reach_serve; [apply reach_start | exact I]).
  split; [exact R|]. split; [reflexivity|].
  apply (daily_limit_outlasts_decisions db_booked db_rejected no_faults
           (later 120000 morning) "S1" "R1" "10:00-12:00");
    [discriminate | exact R | reflexivity ..].
Defined.

(** *** One booking per student and day *)

Lemma NoDup_map_filter {A B : Type} (k : A -> B) (p : A -> bool) (l : list A) :
  NoDup (map k l) -> NoDup (map k (filter p l)).
Proof.
  induction l as [|a l IH]; cbn [map filter]; intros H; [constructor|].
  inversion H as [|x xs Hnotin Hnd]; subst.
  destruct (p a); cbn [map]; [|auto].
  constructor; [|auto]. intros Hin. apply Hnotin.
  apply in_map_iff in Hin. destruct Hin as [x [Hk Hx]].
  apply filter_In in Hx. apply in_map_iff. exists x. split; [assumption | apply Hx].
Qed.

Lemma booking_day_decided (status : string) (approvedBy : option string) (now : Z)
      (bookingId : string) (bs : list booking) :
  map booking_day (PutBookingStatus.updateBookingSql status approvedBy now bookingId bs)
  = map booking_day bs.
Proof.
  unfold PutBookingStatus.updateBookingSql, update. rewrite map_map.
  apply map_ext. intros b. destruct (b_id b =? bookingId); reflexivity.
Qed.

Lemma one_per_day_booked (bookingId studentId roomId today timeSlot : string)
      (bs : list booking) :
  PostBookings.checkSql studentId today bs = [] -> one_per_day bs ->
  one_per_day (PostBookings.bookingSql bookingId studentId roomId today timeSlot bs).
Proof.
  unfold one_per_day, PostBookings.bookingSql. intros Hc Hnd.
  rewrite map_app. cbn [map]. apply NoDup_app; [assumption | repeat constructor; auto |].
  intros k Hin [<- | []]. apply in_map_iff in Hin. destruct Hin as [b [Hk Hb]].
  assert (H : PostBookings.checkSql studentId today bs <> [])
    by (apply checkSql_some; exists b; split; assumption).
  contradiction.
Qed.

Lemma serve_keeps_one_per_day (f : faults) (clk : clock) (rq : request) (d : db) :
  one_per_day (bookings d) -> one_per_day (bookings (serve f clk rq d)).
Proof.
  intros H.
  destruct rq; cbn [serve];
    try (unfold resetRoomStatuses, GetTimeSlots.handler, PostRooms.handler, PutRoom.handler,
           PatchRoomDisable.handler, PatchRoomEnable.handler, PatchSlotDisable.handler,
           PatchSlotEnable.handler;
         by_cases; exact H).
  - unfold PostBookings.handler.
    destruct (negb (JS.truthy studentId) || negb (JS.truthy roomId) || negb (JS.truthy timeSlot));
      [assumption|].
    destruct (negb (isTimeSlotValid clk timeSlot)); [assumption|].
    destruct (f 0%nat); [assumption|].
    destruct (PostBookings.checkSql studentId (clk_today clk) (bookings d)) eqn:Ec;
      [|assumption].
    destruct (f 1%nat); [assumption|].
    destruct (PostBookings.slotCheckSql roomId (clk_today clk) timeSlot (room_availability d)).
    + destruct (f 2%nat); [assumption|].
      destruct (PostBookings.statusCheckSql roomId (clk_today clk) timeSlot
                  (room_availability d)); assumption.
    + destruct (f 3%nat); [assumption|].
      pose proof (one_per_day_booked ("book_" ++ JS.ofInt (clk_now clk)) studentId roomId
                    (clk_today clk) timeSlot (bookings d) Ec H) as H1.
      destruct (f 4%nat); [destruct (f 5%nat)|]; cbn [fst bookings with_bookings with_availability];
        try exact H1.
      unfold PostBookings.rollbackSql, delete. apply NoDup_map_filter. exact H1.
  - unfold PutBookingStatus.handler.
    destruct (f 0%nat); [assumption|].
    destruct (PutBookingStatus.getBookingSql bookingId (bookings d)); [assumption|].
    destruct (f 1%nat); [assumption|].
    cbn [fst]. destruct (f 2%nat); cbn [bookings with_bookings with_availability];
      unfold one_per_day; rewrite booking_day_decided; exact H.
Qed.

(** No student ever has two bookings for one day: when the ledger
    starts out that way it stays that way through every operation,
    whatever store calls fail; two ledger rows of one student and day
    are one and the same row. *)
Theorem one_booking_per_student_and_day (d0 d : db) :
  one_per_day (bookings d0) -> reachable d0 d ->
  forall b b', In b (bookings d) -> In b' (bookings d) ->
               b_student_id b = b_student_id b' -> b_booking_date b = b_booking_date b' ->
               b = b'.
Proof.
  intros H0 Hreach.
  assert (H : one_per_day (bookings d)).
  { induction Hreach as [|f clk rq d Hreach IH Hid]; [assumption|].
    apply serve_keeps_one_per_day. assumption. }
  intros b b' Hb Hb' Hs Hd.
  unfold one_per_day in H. clear - H Hb Hb' Hs Hd.
  induction (bookings d) as [|a l IH]; [destruct Hb|].
  cbn [map] in H. inversion H as [|x xs Hnotin Hnd]; subst.
  assert (Hk : booking_day b = booking_day b') by (unfold booking_day; congruence).
  destruct Hb as [-> | Hb], Hb' as [-> | Hb'].
  - reflexivity.
  - exfalso. apply Hnotin. rewrite Hk. apply in_map. assumption.
  - exfalso. apply Hnotin. rewrite <- Hk. apply in_map. assumption.
  - auto.
Qed.

Lemma one_booking_per_student_and_day_witness :
  one_per_day (bookings db_free) /\ reachable db_free db_rejected /\
  bookings db_rejected
  = [Booking "book_1762473600000" "S1" "R1" "2025-11-07" "08:00-10:00" "Rejected"
             (Some "L1") (Some 1762473660000%Z)] /\
  (forall b, In b (bookings db_rejected) ->
             b_student_id b = "S1" -> b_booking_date b = "2025-11-07" ->
             b = Booking "book_1762473600000" "S1" "R1" "2025-11-07" "08:00-10:00" "Rejected"
                         (Some "L1") (Some 1762473660000%Z)).
Proof.
  assert (R : reachable db_free db_rejected).
  { apply reach_serve; [|exact I]. apply reach_serve; [apply reach_start|].
    cbn. discriminate. }
  split; [constructor|]. split; [exact R|]. split; [reflexivity|].
  intros b Hin Hs Hd.
  apply (one_booking_per_student_and_day db_free db_rejected);
    [constructor | exact R | exact Hin | left; reflexivity | exact Hs | exact Hd].
Defined.

(** The has-booked-today answer and the daily gate of book agree:
    the answer is true exactly when a well-formed book call of that
    student would be turned away with the one-slot-per-day error. *)
Theorem has_booked_agrees_with_daily_gate
        (f f' : faults) (clk : clock) (studentId roomId timeSlot : string) (d : db) :
  JS.truthy studentId = true -> JS.truthy roomId = true -> JS.truthy timeSlot = true ->
  isTimeSlotValid clk timeSlot = true -> f 0%nat = false -> f' 0%nat = false ->
  (GetHasBookedToday.handler f' clk studentId d = GetHasBookedToday.HasBooked true <->
   PostBookings.handler f clk studentId roomId timeSlot d
   = (d, Error 400 "You can only book one slot per day")) /\
  (GetHasBookedToday.handler f' clk studentId d = GetHasBookedToday.HasBooked false <->
   PostBookings.checkSql studentId (clk_today clk) (bookings d) = []).
Proof.
  intros Hs Hr Ht Hv H0 H0'.
  unfold GetHasBookedToday.handler, GetHasBookedToday.sql, PostBookings.handler.
  rewrite Hs, Hr, Ht, Hv, H0, H0'. cbn [negb orb].
  unfold PostBookings.checkSql.
  destruct (filter _ (bookings d)) as [|b l]; cbn [length Nat.ltb Nat.leb].
  - split; split; try reflexivity; try discriminate.
    destruct (f 1%nat); [discriminate|].
    destruct (PostBookings.slotCheckSql roomId (clk_today clk) timeSlot (room_availability d)).
    + destruct (f 2%nat); [discriminate|].
      destruct (PostBookings.statusCheckSql roomId (clk_today clk) timeSlot
                  (room_availability d)) as [|r rs]; [discriminate|].
      unfold PostBookings.errorMessage.
      destruct (ra_status r); try discriminate;
        destruct (ra_student_id r) as [s|]; try discriminate;
        destruct (JS.truthy s); discriminate.
    + destruct (f 3%nat); [discriminate|]. destruct (f 4%nat); discriminate.
  - split; split; try reflexivity; discriminate.
Qed.

Lemma has_booked_agrees_with_daily_gate_witness :
  GetHasBookedToday.handler no_faults morning "S1" db_pending
  = GetHasBookedToday.HasBooked true /\
  PostBookings.handler no_faults morning "S1" "R1" "10:00-12:00" db_pending
  = (db_pending, Error 400 "You can only book one slot per day").
Proof.
  split; [reflexivity|].
  apply (has_booked_agrees_with_daily_gate no_faults no_faults morning
           "S1" "R1" "10:00-12:00" db_pending); reflexivity.
Defined.

(** ** Decisions *)

Lemma update_update {A : Type} (cond : A -> bool) (set set' : A -> A) (t : list A) :
  (forall row, cond row = true -> cond (set row) = true /\ set' (set row) = set' row) ->
  update cond set' (update cond set t) = update cond set' t.
Proof.
  intros H. unfold update. rewrite map_map. apply map_ext. intros row.
  destruct (cond row) eqn:E; [|rewrite E; reflexivity].
  destruct (H row E) as [-> ->]. reflexivity.
Qed.

Lemma getBookingSql_decided (status : string) (approvedBy : option string) (now : Z)
      (bookingId : string) (bs : list booking) :
  PutBookingStatus.getBookingSql bookingId
    (PutBookingStatus.updateBookingSql status approvedBy now bookingId bs)
  = map (fun b => Booking (b_id b) (b_student_id b) (b_room_id b) (b_booking_date b)
                          (b_time_slot b) status approvedBy (Some now))
        (PutBookingStatus.getBookingSql bookingId bs).
Proof.
  unfold PutBookingStatus.getBookingSql, PutBookingStatus.updateBookingSql, update.
  induction bs as [|b bs IH]; [reflexivity|]. cbn [map filter].
  destruct (b_id b =? bookingId) eqn:E; cbn [b_id]; rewrite E; cbn [map]; now rewrite IH.
Qed.

(** Of two decisions on one booking the later one wins: deciding
    again gives the store that the second decision alone would have
    given, so a decided booking can be decided anew, and deciding the
    same way twice is deciding once. *)
Theorem later_decision_overrides
        (clk clk' : clock) (bookingId status status' : string)
        (approvedBy approvedBy' : option string) (d : db) :
  fst (PutBookingStatus.handler no_faults clk' bookingId status' approvedBy'
         (fst (PutBookingStatus.handler no_faults clk bookingId status approvedBy d)))
  = fst (PutBookingStatus.handler no_faults clk' bookingId status' approvedBy' d).
Proof.
  unfold PutBookingStatus.handler at 2 3. cbn [no_faults].
  destruct (PutBookingStatus.getBookingSql bookingId (bookings d)) as [|b l] eqn:E.
  - cbn [fst]. unfold PutBookingStatus.handler. cbn [no_faults]. rewrite E. reflexivity.
  - cbn [fst]. unfold PutBookingStatus.handler. cbn [no_faults].
    cbn [bookings room_availability rooms with_bookings with_availability].
    rewrite getBookingSql_decided, E. cbn [map fst b_room_id b_booking_date b_time_slot
                                            b_student_id].
    unfold with_availability, with_bookings. cbn [rooms bookings room_availability]. f_equal.
    + unfold PutBookingStatus.updateAvailabilitySql. apply update_update.
      intros r Hr. split; [exact Hr | reflexivity].
    + unfold PutBookingStatus.updateBookingSql. apply update_update.
      intros b0 Hb. split; [exact Hb | reflexivity].
Qed.

(** *** A rejected slot *)

Lemma released_rows_stay_bound (studentId roomId today timeSlot : string) (st : slot_status)
      (t : list availability) :
  PutBookingStatus.updateAvailabilitySql st roomId today timeSlot studentId
    (PostBookings.updateSql studentId roomId today timeSlot t)
  = update (of_slot roomId today timeSlot)
           (fun r => Availability (ra_time_slot r) st (ra_room_id r)
                                  (ra_availability_date r) (Some studentId)
                                  (ra_booking_id r))
           t.
Proof.
  unfold PutBookingStatus.updateAvailabilitySql, PostBookings.updateSql, update.
  rewrite map_map. apply map_ext. intros r.
  destruct (of_slot roomId today timeSlot r) eqn:E.
  - rewrite of_slot_updateSql_row, E. unfold student_is. cbn [ra_student_id].
    rewrite String.eqb_refl. reflexivity.
  - rewrite E. reflexivity.
Qed.

Lemma bound_rows_fail_slot_check (studentId roomId today timeSlot : string) (st : slot_status)
      (t : list availability) :
  JS.truthy studentId = true ->
  PostBookings.slotCheckSql roomId today timeSlot
    (update (of_slot roomId today timeSlot)
            (fun r => Availability (ra_time_slot r) st (ra_room_id r)
                                   (ra_availability_date r) (Some studentId)
                                   (ra_booking_id r)) t) = [].
Proof.
  intros Hs. unfold PostBookings.slotCheckSql, update.
  induction t as [|r t IH]; [reflexivity|]. cbn [map filter].
  destruct (of_slot roomId today timeSlot r) eqn:E.
  - change (of_slot roomId today timeSlot
              (Availability (ra_time_slot r) st (ra_room_id r) (ra_availability_date r)
                            (Some studentId) (ra_booking_id r)))
      with (of_slot roomId today timeSlot r).
    rewrite E. unfold unbound. cbn [ra_student_id ra_status].
    destruct studentId; [discriminate|]. cbn [String.eqb].
    rewrite andb_false_r. exact IH.
  - rewrite E. exact IH.
Qed.

Lemma bound_rows_first (studentId roomId today timeSlot : string) (st : slot_status)
      (t : list availability) :
  PostBookings.slotCheckSql roomId today timeSlot t <> [] ->
  exists r rest,
    PostBookings.statusCheckSql roomId today timeSlot
      (update (of_slot roomId today timeSlot)
              (fun r => Availability (ra_time_slot r) st (ra_room_id r)
                                     (ra_availability_date r) (Some studentId)
                                     (ra_booking_id r)) t) = r :: rest /\
    ra_status r = st /\ ra_student_id r = Some studentId.
Proof.
  unfold PostBookings.slotCheckSql, PostBookings.statusCheckSql, update.
  induction t as [|r t IH]; [intros H; exfalso; apply H; reflexivity|]. cbn [map filter].
  destruct (of_slot roomId today timeSlot r) eqn:E.
  - intros _.
    change (of_slot roomId today timeSlot
              (Availability (ra_time_slot r) st (ra_room_id r) (ra_availability_date r)
                            (Some studentId) (ra_booking_id r)))
      with (of_slot roomId today timeSlot r).
    rewrite E. eexists. eexists. repeat split.
  - rewrite E. cbn [andb]. exact IH.
Qed.

Lemma book_when_bound (clk : clock) (studentId roomId timeSlot : string) (d : db)
      (r : availability) (rest : list availability) (holder : string) :
  JS.truthy studentId = true -> JS.truthy roomId = true -> JS.truthy timeSlot = true ->
  isTimeSlotValid clk timeSlot = true ->
  PostBookings.checkSql studentId (clk_today clk) (bookings d) = [] ->
  PostBookings.slotCheckSql roomId (clk_today clk) timeSlot (room_availability d) = [] ->
  PostBookings.statusCheckSql roomId (clk_today clk) timeSlot (room_availability d) = r :: rest ->
  ra_status r = free -> ra_student_id r = Some holder -> JS.truthy holder = true ->
  PostBookings.handler no_faults clk studentId roomId timeSlot d
  = (d, Error 400 "Time slot is already booked by another student").
Proof.
  intros Hs Hr Ht Hv Hc Hsc Hst Hf Hb Hh. unfold PostBookings.handler, no_faults.
  rewrite Hs, Hr, Ht, Hv, Hc, Hsc, Hst. unfold PostBookings.errorMessage.
  rewrite Hf, Hb, Hh. reflexivity.
Qed.

(** A slot whose booking was rejected is free in name only: the
    rejection sets its status to free and leaves it bound to the
    rejected student, so that the book call of any other student for
    that slot is turned away as "booked by another student". *)
Theorem rejected_slot_stays_blocked
        (clk clk' clk'' : clock) (studentId other roomId timeSlot status : string)
        (approvedBy : option string) (d : db) :
  JS.truthy studentId = true -> JS.truthy other = true ->
  JS.truthy roomId = true -> JS.truthy timeSlot = true ->
  isTimeSlotValid clk timeSlot = true -> isTimeSlotValid clk'' timeSlot = true ->
  clk_today clk'' = clk_today clk ->
  PostBookings.checkSql studentId (clk_today clk) (bookings d) = [] ->
  PostBookings.checkSql other (clk_today clk) (bookings d) = [] ->
  other <> studentId ->
  PostBookings.slotCheckSql roomId (clk_today clk) timeSlot (room_availability d) <> [] ->
  PutBookingStatus.getBookingSql ("book_" ++ JS.ofInt (clk_now clk)) (bookings d) = [] ->
  JS.toLowerCase status <> "approved" ->
  let booked := fst (PostBookings.handler no_faults clk studentId roomId timeSlot d) in
  let decided := fst (PutBookingStatus.handler no_faults clk'
                        ("book_" ++ JS.ofInt (clk_now clk)) status approvedBy booked) in
  (forall r, In r (room_availability decided) ->
             of_slot roomId (clk_today clk) timeSlot r = true ->
             ra_status r = free /\ ra_student_id r = Some studentId) /\
  PostBookings.handler no_faults clk'' other roomId timeSlot decided
  = (decided, Error 400 "Time slot is already booked by another student").
Proof.
  intros Hs Ho Hr Ht Hv Hv'' Hday Hc Hco Hne Hfree Hfresh Hst booked decided.
  assert (Eb : booked
               = Db (rooms d)
                    (PostBookings.updateSql studentId roomId (clk_today clk) timeSlot
                       (room_availability d))
                    (PostBookings.bookingSql ("book_" ++ JS.ofInt (clk_now clk)) studentId roomId
                       (clk_today clk) timeSlot (bookings d))).
  { subst booked. rewrite book_first by assumption. reflexivity. }
  assert (Ed : decided
               = Db (rooms d)
                    (update (of_slot roomId (clk_today clk) timeSlot)
                       (fun r => Availability (ra_time_slot r) free (ra_room_id r)
                                              (ra_availability_date r) (Some studentId)
                                              (ra_booking_id r))
                       (room_availability d))
                    (PutBookingStatus.updateBookingSql status approvedBy (clk_now clk')
                       ("book_" ++ JS.ofInt (clk_now clk))
                       (PostBookings.bookingSql ("book_" ++ JS.ofInt (clk_now clk)) studentId
                          roomId (clk_today clk) timeSlot (bookings d)))).
  { subst decided. rewrite Eb. unfold PutBookingStatus.handler. cbn [no_faults bookings].
    unfold PostBookings.bookingSql at 1, PutBookingStatus.getBookingSql.
    rewrite filter_app. fold (PutBookingStatus.getBookingSql ("book_" ++ JS.ofInt (clk_now clk))
                                (bookings d)).
    rewrite Hfresh. cbn [filter b_id app]. rewrite String.eqb_refl.
    cbn [fst b_room_id b_booking_date b_time_slot b_student_id rooms bookings room_availability
         with_bookings with_availability].
    destruct (availabilityStatus_cases status) as [_ Hfreeing]. rewrite (Hfreeing Hst).
    rewrite released_rows_stay_bound. reflexivity. }
  split.
  - rewrite Ed. cbn [room_availability]. intros r Hin Hk.
    apply in_update in Hin. destruct Hin as [r0 [_ ->]].
    destruct (of_slot roomId (clk_today clk) timeSlot r0) eqn:E; [split; reflexivity|].
    congruence.
  - destruct (bound_rows_first studentId roomId (clk_today clk) timeSlot free
                (room_availability d) Hfree) as [r [rest [Hrows [Hrs Hrb]]]].
    apply (book_when_bound clk'' other roomId timeSlot decided r rest studentId);
      try assumption; rewrite ?Hday, Ed; cbn [bookings room_availability];
      try assumption.
    + match goal with |- ?x = [] => destruct x as [|b l] eqn:E; [reflexivity|] end.
      exfalso.
      assert (Hsome : PostBookings.checkSql other (clk_today clk)
                        (PutBookingStatus.updateBookingSql status approvedBy (clk_now clk')
                           ("book_" ++ JS.ofInt (clk_now clk))
                           (PostBookings.bookingSql ("book_" ++ JS.ofInt (clk_now clk))
                              studentId roomId (clk_today clk) timeSlot (bookings d))) <> [])
        by (rewrite E; discriminate).
      apply checkSql_some in Hsome. destruct Hsome as [b' [Hin Hk]].
      apply (in_map booking_day) in Hin. rewrite booking_day_decided in Hin.
      unfold PostBookings.bookingSql in Hin. rewrite map_app in Hin.
      apply in_app_or in Hin. destruct Hin as [Hin | [Hin | []]].
      * apply in_map_iff in Hin. destruct Hin as [b0 [Hk0 Hin0]].
        assert (Hsome0 : PostBookings.checkSql other (clk_today clk) (bookings d) <> [])
          by (apply checkSql_some; exists b0; split; [assumption | congruence]).
        contradiction.
      * rewrite Hk in Hin. unfold booking_day in Hin. cbn in Hin. congruence.
    + apply bound_rows_fail_slot_check. assumption.
Qed.

Lemma rejected_slot_stays_blocked_witness :
  room_availability db_rejected = today_slots free (Some "S1") /\
  PostBookings.handler no_faults (later 120000 morning) "S2" "R1" "08:00-10:00" db_rejected
  = (db_rejected, Error 400 "Time slot is already booked by another student").
Proof.
  split; [reflexivity|].
  apply (rejected_slot_stays_blocked morning (later 60000 morning) (later 120000 morning)
           "S1" "S2" "R1" "08:00-10:00" "Rejected" (Some "L1") db_free);
    try reflexivity; vm_compute; discriminate.
Defined.

(** ** Enabling and disabling *)

Lemma update_undo {A : Type} (cond cond' : A -> bool) (set set' : A -> A) (t : list A) :
  (forall row, In row t -> cond row = true ->
               cond' (set row) = true /\ set' (set row) = row) ->
  (forall row, In row t -> cond row = false -> cond' row = false) ->
  update cond' set' (update cond set t) = t.
Proof.
  intros Hyes Hno. unfold update. rewrite map_map.
  rewrite <- (map_id t) at 2. apply map_ext_in. intros row Hin.
  destruct (cond row) eqn:E.
  - destruct (Hyes row Hin E) as [-> ->]. reflexivity.
  - rewrite (Hno row Hin E). reflexivity.
Qed.

Lemma set_status_back (r : availability) (st : slot_status) :
  set_status (ra_status r) (set_status st r) = r.
Proof. destruct r. reflexivity. Qed.

Lemma affected_after_disable (roomId today : string) (t : list availability) :
  (forall r, In r t -> of_room_date roomId today r = true -> ra_status r = free) ->
  affectedRows (PatchRoomEnable.is_disabled_of roomId today)
               (PatchRoomDisable.disableSlotsSql roomId today t)
  = length (filter (of_room_date roomId today) t).
Proof.
  unfold affectedRows, PatchRoomDisable.disableSlotsSql, update.
  induction t as [|r t IH]; intros Hall; [reflexivity|]. cbn [map filter].
  assert (IH' := IH (fun x Hx => Hall x (or_intror Hx))).
  unfold PatchRoomDisable.is_free_of at 1.
  destruct (of_room_date roomId today r) eqn:E.
  - rewrite (Hall r (or_introl eq_refl) E). cbn [status_eqb andb].
    unfold PatchRoomEnable.is_disabled_of at 1.
    change (of_room_date roomId today (set_status disabled r))
      with (of_room_date roomId today r).
    rewrite E. cbn [ra_status set_status status_eqb andb length]. f_equal. exact IH'.
  - cbn [andb]. unfold PatchRoomEnable.is_disabled_of at 1. rewrite E. cbn [andb].
    exact IH'.
Qed.

(** Disabling a room and enabling it again brings every slot back:
    for a room the disable accepts (all its slots of the day free),
    the two calls in a row, the store failing nowhere, leave the table
    of slots as it was and the room enabled. *)
Theorem room_disable_then_enable_restores (clk : clock) (roomId : string) (d : db) :
  (forall r, In r (room_availability d) ->
             of_room_date roomId (clk_today clk) r = true -> ra_status r = free) ->
  let disabled_room := fst (PatchRoomDisable.handler no_faults clk roomId d) in
  let enabled_room := fst (PatchRoomEnable.handler no_faults clk roomId disabled_room) in
  room_availability enabled_room = room_availability d /\
  bookings enabled_room = bookings d /\
  (forall r, In r (rooms enabled_room) -> r_id r = roomId -> r_is_disabled r = 0%Z) /\
  snd (PatchRoomEnable.handler no_faults clk roomId disabled_room)
  = SlotsAffected "Room enabled successfully"
      (length (filter (of_room_date roomId (clk_today clk)) (room_availability d))).
Proof.
  intros Hall disabled_room enabled_room.
  assert (Hcheck : PatchRoomDisable.checkSql roomId (clk_today clk) (room_availability d)
                   = 0%nat).
  { unfold PatchRoomDisable.checkSql.
    destruct (filter _ (room_availability d)) as [|r l] eqn:E; [reflexivity|].
    assert (Hin : In r (r :: l)) by now left.
    rewrite <- E in Hin. apply filter_In in Hin. destruct Hin as [Hin Hc].
    apply andb_true_iff in Hc. destruct Hc as [Hr Hs].
    rewrite (Hall r Hin Hr) in Hs. discriminate. }
  assert (Ed : disabled_room
               = Db (disableRoomSql roomId (rooms d))
                    (PatchRoomDisable.disableSlotsSql roomId (clk_today clk)
                       (room_availability d))
                    (bookings d)).
  { subst disabled_room. unfold PatchRoomDisable.handler. cbn [no_faults].
    rewrite Hcheck. reflexivity. }
  subst enabled_room. rewrite Ed. unfold PatchRoomEnable.handler.
  cbn [no_faults fst snd rooms bookings room_availability with_rooms with_availability].
  split; [|split; [reflexivity|split]].
  - unfold PatchRoomEnable.enableSlotsSql, PatchRoomDisable.disableSlotsSql.
    apply update_undo.
    + intros r Hin Hc. unfold PatchRoomDisable.is_free_of in Hc.
      apply andb_true_iff in Hc. destruct Hc as [Hr Hs]. apply status_eqb_eq in Hs.
      split.
      * unfold PatchRoomEnable.is_disabled_of.
        change (of_room_date roomId (clk_today clk) (set_status disabled r))
          with (of_room_date roomId (clk_today clk) r).
        rewrite Hr. reflexivity.
      * rewrite <- Hs at 1. apply set_status_back.
    + intros r Hin Hc. unfold PatchRoomDisable.is_free_of in Hc.
      unfold PatchRoomEnable.is_disabled_of.
      destruct (of_room_date roomId (clk_today clk) r) eqn:Hr; [|reflexivity].
      rewrite (Hall r Hin Hr). reflexivity.
  - intros r. apply in_enableRoomSql.
  - f_equal. apply affected_after_disable. exact Hall.
Qed.

Lemma room_disable_then_enable_restores_witness :
  room_availability
    (fst (PatchRoomEnable.handler no_faults morning "R1"
            (fst (PatchRoomDisable.handler no_faults morning "R1" db_free))))
  = room_availability db_free /\
  snd (PatchRoomEnable.handler no_faults morning "R1"
         (fst (PatchRoomDisable.handler no_faults morning "R1" db_free)))
  = SlotsAffected "Room enabled successfully" 4.
Proof.
  split; [reflexivity|].
  apply (room_disable_then_enable_restores morning "R1" db_free).
  intros r Hin _. cbn in Hin.
  destruct Hin as [<- | [<- | [<- | [<- | []]]]]; reflexivity.
Defined.

(** ** The rows of the slot table *)


Lemma insertSlots_created (f : faults) (roomId date : string) (labels : list string) :
  forall k t, exists added,
    PostRooms.insertSlots f k roomId date labels t = (t ++ added)%list /\
    Forall (fresh_slot roomId date labels) added.
Proof.
  induction labels as [|slot rest IH]; intros k t; cbn [PostRooms.insertSlots].
  - exists []. rewrite app_nil_r. split; constructor.
  - destruct (f k).
    + destruct (IH (S k) t) as [added [E F]]. exists added. split; [assumption|].
      eapply Forall_impl; [|exact F]. intros r. apply fresh_slot_weaken.
      intros x Hx. now right.
    + unfold PostRooms.slotSql.
      destruct (insert_slot_adds slot roomId date t) as [a1 [E1 F1]].
      destruct (IH (S k) (insert_slot slot roomId date t)) as [a2 [E2 F2]].
      exists (a1 ++ a2)%list. rewrite E2, E1, app_assoc. split; [reflexivity|].
      apply Forall_app. split.
      * eapply Forall_impl; [|exact F1]. intros r. apply fresh_slot_weaken.
        intros x [<- | []]. now left.
      * eapply Forall_impl; [|exact F2]. intros r. apply fresh_slot_weaken.
        intros x Hx. now right.
Qed.




(** ** An approved slot *)

Lemma booked_then_decided
      (clk clk' : clock) (studentId roomId timeSlot status : string)
      (approvedBy : option string) (d : db) :
  JS.truthy studentId = true -> JS.truthy roomId = true -> JS.truthy timeSlot = true ->
  isTimeSlotValid clk timeSlot = true ->
  PostBookings.checkSql studentId (clk_today clk) (bookings d) = [] ->
  PostBookings.slotCheckSql roomId (clk_today clk) timeSlot (room_availability d) <> [] ->
  PutBookingStatus.getBookingSql ("book_" ++ JS.ofInt (clk_now clk)) (bookings d) = [] ->
  fst (PutBookingStatus.handler no_faults clk' ("book_" ++ JS.ofInt (clk_now clk)) status
         approvedBy (fst (PostBookings.handler no_faults clk studentId roomId timeSlot d)))
  = Db (rooms d)
       (update (of_slot roomId (clk_today clk) timeSlot)
          (fun r => Availability (ra_time_slot r) (PutBookingStatus.availabilityStatus status)
                                 (ra_room_id r) (ra_availability_date r) (Some studentId)
                                 (ra_booking_id r))
          (room_availability d))
       (PutBookingStatus.updateBookingSql status approvedBy (clk_now clk')
          ("book_" ++ JS.ofInt (clk_now clk))
          (PostBookings.bookingSql ("book_" ++ JS.ofInt (clk_now clk)) studentId
             roomId (clk_today clk) timeSlot (bookings d))).
Proof.
  intros Hs Hr Ht Hv Hc Hfree Hfresh.
  rewrite book_first by assumption. cbn [fst].
  unfold PutBookingStatus.handler. cbn [no_faults bookings].
  unfold PostBookings.bookingSql at 1, PutBookingStatus.getBookingSql.
  rewrite filter_app.
  fold (PutBookingStatus.getBookingSql ("book_" ++ JS.ofInt (clk_now clk)) (bookings d)).
  rewrite Hfresh. cbn [filter b_id app]. rewrite String.eqb_refl.
  cbn [fst b_room_id b_booking_date b_time_slot b_student_id rooms bookings room_availability
       with_bookings with_availability].
  rewrite released_rows_stay_bound. reflexivity.
Qed.

Lemma book_when_reserved (clk : clock) (studentId roomId timeSlot : string) (d : db)
      (r : availability) (rest : list availability) :
  JS.truthy studentId = true -> JS.truthy roomId = true -> JS.truthy timeSlot = true ->
  isTimeSlotValid clk timeSlot = true ->
  PostBookings.checkSql studentId (clk_today clk) (bookings d) = [] ->
  PostBookings.slotCheckSql roomId (clk_today clk) timeSlot (room_availability d) = [] ->
  PostBookings.statusCheckSql roomId (clk_today clk) timeSlot (room_availability d) = r :: rest ->
  ra_status r = reserved ->
  PostBookings.handler no_faults clk studentId roomId timeSlot d
  = (d, Error 400 "Time slot is already reserved").
Proof.
  intros Hs Hr Ht Hv Hc Hsc Hst Hp. unfold PostBookings.handler, no_faults.
  rewrite Hs, Hr, Ht, Hv, Hc, Hsc, Hst. unfold PostBookings.errorMessage.
  rewrite Hp. reflexivity.
Qed.

Lemma checkSql_other_student
      (other studentId bookingId roomId today timeSlot status : string)
      (approvedBy : option string) (now : Z) (bs : list booking) :
  PostBookings.checkSql other today bs = [] -> other <> studentId ->
  PostBookings.checkSql other today
    (PutBookingStatus.updateBookingSql status approvedBy now bookingId
       (PostBookings.bookingSql bookingId studentId roomId today timeSlot bs)) = [].
Proof.
  intros Hco Hne.
  match goal with |- ?x = [] => destruct x as [|b l] eqn:E; [reflexivity|] end.
  exfalso.
  assert (Hsome : PostBookings.checkSql other today
                    (PutBookingStatus.updateBookingSql status approvedBy now bookingId
                       (PostBookings.bookingSql bookingId studentId roomId today timeSlot bs))
                  <> []) by (rewrite E; discriminate).
  apply checkSql_some in Hsome. destruct Hsome as [b' [Hin Hk]].
  apply (in_map booking_day) in Hin. rewrite booking_day_decided in Hin.
  unfold PostBookings.bookingSql in Hin. rewrite map_app in Hin.
  apply in_app_or in Hin. destruct Hin as [Hin | [Hin | []]].
  - apply in_map_iff in Hin. destruct Hin as [b0 [Hk0 Hin0]].
    assert (Hsome0 : PostBookings.checkSql other today bs <> [])
      by (apply checkSql_some; exists b0; split; [assumption | congruence]).
    contradiction.
  - rewrite Hk in Hin. unfold booking_day in Hin. cbn in Hin. congruence.
Qed.

(** Booked and then approved, a slot is reserved and bound to its
    student in every one of its rows, and the book call of any other
    student for it is turned away as already reserved. *)
Theorem approved_slot_is_reserved_for_others
        (clk clk' clk'' : clock) (studentId other roomId timeSlot status : string)
        (approvedBy : option string) (d : db) :
  JS.truthy studentId = true -> JS.truthy other = true ->
  JS.truthy roomId = true -> JS.truthy timeSlot = true ->
  isTimeSlotValid clk timeSlot = true -> isTimeSlotValid clk'' timeSlot = true ->
  clk_today clk'' = clk_today clk ->
  PostBookings.checkSql studentId (clk_today clk) (bookings d) = [] ->
  PostBookings.checkSql other (clk_today clk) (bookings d) = [] ->
  other <> studentId ->
  PostBookings.slotCheckSql roomId (clk_today clk) timeSlot (room_availability d) <> [] ->
  PutBookingStatus.getBookingSql ("book_" ++ JS.ofInt (clk_now clk)) (bookings d) = [] ->
  JS.toLowerCase status = "approved" ->
  let booked := fst (PostBookings.handler no_faults clk studentId roomId timeSlot d) in
  let decided := fst (PutBookingStatus.handler no_faults clk'
                        ("book_" ++ JS.ofInt (clk_now clk)) status approvedBy booked) in
  (forall r, In r (room_availability decided) ->
             of_slot roomId (clk_today clk) timeSlot r = true ->
             ra_status r = reserved /\ ra_student_id r = Some studentId) /\
  PostBookings.handler no_faults clk'' other roomId timeSlot decided
  = (decided, Error 400 "Time slot is already reserved").
Proof.
  intros Hs Ho Hr Ht Hv Hv'' Hday Hc Hco Hne Hfree Hfresh Hst booked decided.
  assert (Ed := booked_then_decided clk clk' studentId roomId timeSlot status approvedBy d
                  Hs Hr Ht Hv Hc Hfree Hfresh).
  fold booked in Ed. fold decided in Ed.
  destruct (availabilityStatus_cases status) as [Hres _]. rewrite (Hres Hst) in Ed.
  split.
  - rewrite Ed. cbn [room_availability]. intros r Hin Hk.
    apply in_update in Hin. destruct Hin as [r0 [_ ->]].
    destruct (of_slot roomId (clk_today clk) timeSlot r0) eqn:E; [split; reflexivity|].
    congruence.
  - destruct (bound_rows_first studentId roomId (clk_today clk) timeSlot reserved
                (room_availability d) Hfree) as [r [rest [Hrows [Hrs Hrb]]]].
    apply (book_when_reserved clk'' other roomId timeSlot decided r rest);
      try assumption; rewrite ?Hday, Ed; cbn [bookings room_availability];
      try assumption.
    + apply checkSql_other_student; assumption.
    + apply bound_rows_fail_slot_check. assumption.
Qed.

Lemma approved_slot_is_reserved_for_others_witness :
  PostBookings.handler no_faults (later 120000 morning) "S2" "R1" "08:00-10:00"
    (fst (PutBookingStatus.handler no_faults (later 60000 morning) "book_1762473600000"
            "APPROVED" (Some "L1") db_booked))
  = (fst (PutBookingStatus.handler no_faults (later 60000 morning) "book_1762473600000"
            "APPROVED" (Some "L1") db_booked),
     Error 400 "Time slot is already reserved").
Proof.
  apply (approved_slot_is_reserved_for_others morning (later 60000 morning)
           (later 120000 morning) "S1" "S2" "R1" "08:00-10:00" "APPROVED" (Some "L1") db_free);
    try reflexivity; vm_compute; discriminate.
Defined.

(** ** Login *)

(** A login succeeds exactly when both fields are non-empty strings,
    the lookup is answered, a user has the email and the password
    verifies against the first such user, whose id, name and role are
    returned with the user type of the email.  Credentials are refused
    with one and the same answer whether the email is unknown or the
    password is wrong. *)
Theorem login_outcomes (verify : string -> string -> option bool) (f : faults)
        (email password : jsval) (users : list user) :
  (forall uid fullName e role ut,
      PostLogin.handler verify f email password users = PostLogin.LoggedIn uid fullName e role ut
      <->
      exists p u rest,
        email = JString e /\ password = JString p /\ e <> "" /\ p <> "" /\
        f 0%nat = false /\ PostLogin.sql e users = u :: rest /\
        verify (u_password u) p = Some true /\
        uid = u_id u /\ fullName = u_full_name u /\ role = u_role u /\ ut = userType e) /\
  (forall error,
      PostLogin.handler verify f email password users = PostLogin.Failed 401 error
      <->
      error = "Invalid login credentials" /\
      exists e p,
        email = JString e /\ password = JString p /\ e <> "" /\ p <> "" /\
        f 0%nat = false /\
        (PostLogin.sql e users = [] \/
         exists u rest, PostLogin.sql e users = u :: rest /\
                        verify (u_password u) p = Some false)).
Proof.
  unfold PostLogin.handler. split.
  - intros uid fullName e role ut. split.
    + destruct (negb (js_truthy email) || negb (js_truthy password)) eqn:T; [discriminate|].
      apply orb_false_iff in T. destruct T as [Te Tp].
      apply negb_false_iff in Te, Tp.
      destruct email as [| |b|n|e0|]; try discriminate;
        destruct password as [| |b|n|p0|]; try discriminate.
      destruct (f 0%nat); [discriminate|].
      destruct (PostLogin.sql e0 users) as [|u rest] eqn:S; [discriminate|].
      destruct (verify (u_password u) p0) as [[|]|] eqn:V; try discriminate.
      intros H. injection H as <- <- <- <- <-.
      exists p0, u, rest. cbn in Te, Tp.
      repeat split; try reflexivity; try assumption; intros ->; discriminate.
    + intros [p [u [rest [-> [-> [He [Hp [H0 [Hs [Hv [-> [-> [-> ->]]]]]]]]]]]]].
      cbn [js_truthy]. destruct e; [congruence|]. destruct p; [congruence|].
      cbn [JS.truthy negb orb]. rewrite H0, Hs, Hv. reflexivity.
  - intros error. split.
    + destruct (negb (js_truthy email) || negb (js_truthy password)) eqn:T; [discriminate|].
      apply orb_false_iff in T. destruct T as [Te Tp].
      apply negb_false_iff in Te, Tp.
      destruct email as [| |b|n|e0|]; try discriminate;
        destruct password as [| |b|n|p0|]; try discriminate.
      cbn in Te, Tp.
      assert (He : e0 <> "") by (intros ->; discriminate).
      assert (Hp : p0 <> "") by (intros ->; discriminate).
      destruct (f 0%nat); [discriminate|].
      destruct (PostLogin.sql e0 users) as [|u rest] eqn:S.
      * intros H. injection H as <-. split; [reflexivity|].
        exists e0, p0. repeat split; auto.
      * destruct (verify (u_password u) p0) as [[|]|] eqn:V; try discriminate.
        intros H. injection H as <-. split; [reflexivity|].
        exists e0, p0. repeat split; auto. right. exists u, rest. auto.
    + intros [-> [e [p [-> [-> [He [Hp [H0 Hcase]]]]]]]].
      cbn [js_truthy]. destruct e; [congruence|]. destruct p; [congruence|].
      cbn [JS.truthy negb orb]. rewrite H0.
      destruct Hcase as [-> | [u [rest [-> ->]]]]; reflexivity.
Qed.

(** ** The listings of rooms *)

Lemma insert_by_perm {A : Type} (leb : A -> A -> bool) (a : A) (l : list A) :
  Permutation (insert_by leb a l) (a :: l).
Proof.
  induction l as [|b l IH]; cbn [insert_by]; [reflexivity|].
  destruct (leb a b); [reflexivity|]. rewrite IH. apply perm_swap.
Qed.

Lemma order_by_perm {A : Type} (leb : A -> A -> bool) (l : list A) :
  Permutation (order_by leb l) l.
Proof.
  induction l as [|a l IH]; [reflexivity|].
  cbn [order_by fold_right]. fold (order_by leb l).
  rewrite insert_by_perm. now constructor.
Qed.

Lemma map_or_throw_total {A B : Type} (g : A -> option B) (l : list A) :
  (forall x, In x l -> g x <> None) ->
  exists l', map_or_throw g l = Some l' /\
             forall y, In y l' -> exists x, In x l /\ g x = Some y.
Proof.
  induction l as [|a l IH]; intros H.
  - exists []. split; [reflexivity | intros ? []].
  - destruct IH as [l' [E P]]; [intros x Hx; apply H; now right|].
    cbn [map_or_throw]. rewrite E.
    destruct (g a) as [b|] eqn:Ga; [|exfalso; apply (H a); [now left | assumption]].
    exists (b :: l'). split; [reflexivity|].
    intros y [<- | Hy].
    + exists a. split; [now left | assumption].
    + destruct (P y Hy) as [x [Hx Gx]]. exists x. split; [now right | assumption].
Qed.

Lemma listed_has_description (r : room) : listed r = true -> description_of r <> None.
Proof.
  unfold listed, description_of.
  destruct (r_name r); [|discriminate]. destruct (r_category r); [|discriminate].
  intros _. destruct (r_description r) as [ds|]; [destruct (JS.truthy ds)|]; discriminate.
Qed.

Lemma non_free_count (roomId today : string) (t : list availability) :
  PatchRoomDisable.checkSql roomId today t
  = (count_slots roomId today pending t + count_slots roomId today reserved t
     + count_slots roomId today disabled t)%nat.
Proof.
  unfold PatchRoomDisable.checkSql, count_slots.
  induction t as [|r t IH]; [reflexivity|]. cbn [filter].
  destruct (of_room_date roomId today r); cbn [andb]; [|exact IH].
  destruct (ra_status r); cbn [status_eqb negb length]; lia.
Qed.

(** The listing for the staff never throws, and its rows are those of
    the rooms with a name and a category.  Its [can_disable] flag is
    looser than the disable route: a room flagged so is disabled, with
    as many slots affected as the row counts free ones, only when none
    of its slots is disabled already; flagged or not, a room with a
    pending, reserved or disabled slot is refused. *)
Theorem staff_listing_and_room_disable (f : faults) (clk : clock) (d : db) :
  f 0%nat = false ->
  exists rows,
    GetRoomsAll.handler f clk d = GetRoomsAll.Rooms rows /\
    forall rw, In rw rows ->
      (exists r, In r (rooms d) /\ listed r = true /\ r_id r = GetRoomsAll.rw_id rw) /\
      (GetRoomsAll.rw_can_disable rw = true -> GetRoomsAll.rw_disabled_slots rw = 0%nat ->
       snd (PatchRoomDisable.handler no_faults clk (GetRoomsAll.rw_id rw) d)
       = SlotsAffected "Room disabled successfully" (GetRoomsAll.rw_free_slots rw)) /\
      ((GetRoomsAll.rw_pending_slots rw + GetRoomsAll.rw_reserved_slots rw
        + GetRoomsAll.rw_disabled_slots rw <> 0)%nat ->
       PatchRoomDisable.handler no_faults clk (GetRoomsAll.rw_id rw) d
       = (d, Error 400 "Cannot disable room with booked or pending slots")).
Proof.
  intros H0. unfold GetRoomsAll.handler. rewrite H0.
  destruct (map_or_throw_total
              (GetRoomsAll.roomWithStatus (clk_today clk) (room_availability d))
              (GetRoomsAll.sql (rooms d))) as [rows [E P]].
  { intros r Hin. unfold GetRoomsAll.sql in Hin.
    apply (Permutation_in _ (order_by_perm _ _)) in Hin. apply filter_In in Hin.
    unfold GetRoomsAll.roomWithStatus.
    pose proof (listed_has_description r (proj2 Hin)) as Hd.
    destruct (description_of r); [discriminate | congruence]. }
  rewrite E. exists rows. split; [reflexivity|].
  intros rw Hrw. destruct (P rw Hrw) as [r [Hin Hg]].
  unfold GetRoomsAll.sql in Hin.
  apply (Permutation_in _ (order_by_perm _ _)) in Hin. apply filter_In in Hin.
  destruct Hin as [Hin Hl].
  unfold GetRoomsAll.roomWithStatus in Hg.
  destruct (description_of r) as [description|]; [|discriminate].
  injection Hg as <-. cbn [GetRoomsAll.rw_id GetRoomsAll.rw_can_disable
                            GetRoomsAll.rw_disabled_slots GetRoomsAll.rw_free_slots
                            GetRoomsAll.rw_pending_slots GetRoomsAll.rw_reserved_slots].
  split; [exists r; auto|].
  unfold PatchRoomDisable.handler. cbn [no_faults]. rewrite non_free_count. split.
  - intros Hflag Hdis. apply andb_true_iff in Hflag. destruct Hflag as [Hflag Hres].
    apply andb_true_iff in Hflag. destruct Hflag as [_ Hpen].
    apply Nat.eqb_eq in Hpen, Hres. rewrite Hpen, Hres, Hdis. cbn [Nat.add Nat.ltb Nat.leb snd].
    reflexivity.
  - intros Hsome.
    destruct (Nat.ltb_spec 0 (count_slots (r_id r) (clk_today clk) pending (room_availability d)
                              + count_slots (r_id r) (clk_today clk) reserved (room_availability d)
                              + count_slots (r_id r) (clk_today clk) disabled
                                  (room_availability d))); [reflexivity | lia].
Qed.

Lemma staff_listing_and_room_disable_witness :
  no_faults 0%nat = false /\
  GetRoomsAll.handler no_faults morning db_one_disabled
  = GetRoomsAll.Rooms
      [GetRoomsAll.Row "R1" "Study room 1" (Some "Study Room") "Library"
                       "Available study room for bookings."
                       "assets/images/default_room.jpg" 0 3 0 0 1 true false] /\
  exists rows, GetRoomsAll.handler no_faults morning db_one_disabled = GetRoomsAll.Rooms rows.
Proof.
  split; [reflexivity|]. split; [reflexivity|].
  destruct (staff_listing_and_room_disable no_faults morning db_one_disabled eq_refl)
    as [rows [E _]].
  exists rows. exact E.
Defined.



(** ** Single slots *)

(** The per-slot disable never touches a slot that is not free: once
    its lookup is answered, a slot without a row gets 404, a slot
    whose first row is pending, reserved or disabled gets 400, and in
    both cases the store is left as it was. *)
Theorem slot_disable_spares_occupied
        (f : faults) (clk : clock) (roomId timeSlot : string) (d : db) :
  f 0%nat = false ->
  (PatchSlotDisable.checkSql roomId (clk_today clk) timeSlot (room_availability d) = [] ->
   PatchSlotDisable.handler f clk roomId timeSlot d = (d, Error 404 "Time slot not found")) /\
  (forall row rest,
      PatchSlotDisable.checkSql roomId (clk_today clk) timeSlot (room_availability d)
      = row :: rest ->
      ra_status row <> free ->
      PatchSlotDisable.handler f clk roomId timeSlot d
      = (d, Error 400 "Can only disable free time slots")).
Proof.
  intros H0. unfold PatchSlotDisable.handler. rewrite H0. split.
  - intros ->. reflexivity.
  - intros row rest -> Hs.
    destruct (status_eqb (ra_status row) free) eqn:E; [|reflexivity].
    apply status_eqb_eq in E. contradiction.
Qed.

Lemma slot_disable_spares_occupied_witness :
  no_faults 0%nat = false /\
  PatchSlotDisable.handler no_faults morning "R1" "08:00-10:00" db_reserved
  = (db_reserved, Error 400 "Can only disable free time slots") /\
  PatchSlotDisable.handler no_faults morning "R1" "18:00-20:00" db_reserved
  = (db_reserved, Error 404 "Time slot not found").
Proof.
  split; [reflexivity|]. split.
  - apply (proj2 (slot_disable_spares_occupied no_faults morning "R1" "08:00-10:00"
                    db_reserved eq_refl)
             (slot_of "2025-11-07" "08:00-10:00" reserved (Some "S1")) []);
      [reflexivity | discriminate].
  - apply (proj1 (slot_disable_spares_occupied no_faults morning "R1" "18:00-20:00"
                    db_reserved eq_refl)).
    reflexivity.
Defined.

(** Disabling a free slot and enabling it again brings it back: both
    calls succeed, the table of slots is as before, and the room is
    enabled whatever it was in between. *)
Theorem slot_disable_then_enable_restores
        (clk : clock) (roomId timeSlot : string) (d : db) :
  PatchSlotDisable.checkSql roomId (clk_today clk) timeSlot (room_availability d) <> [] ->
  (forall r, In r (room_availability d) ->
             of_slot roomId (clk_today clk) timeSlot r = true -> ra_status r = free) ->
  let off := PatchSlotDisable.handler no_faults clk roomId timeSlot d in
  let on := PatchSlotEnable.handler no_faults clk roomId timeSlot (fst off) in
  snd off = Success /\ snd on = Success /\
  (forall r, In r (room_availability (fst off)) ->
             of_slot roomId (clk_today clk) timeSlot r = true -> ra_status r = disabled) /\
  room_availability (fst on) = room_availability d /\
  bookings (fst on) = bookings d /\
  (forall r, In r (rooms (fst on)) -> r_id r = roomId -> r_is_disabled r = 0%Z).
Proof.
  intros Hsome Hall off on.
  assert (Eoff : snd off = Success /\
                 room_availability (fst off)
                 = PatchSlotDisable.disableSql roomId (clk_today clk) timeSlot
                     (room_availability d) /\
                 bookings (fst off) = bookings d).
  { subst off. unfold PatchSlotDisable.handler. cbn [no_faults].
    destruct (PatchSlotDisable.checkSql roomId (clk_today clk) timeSlot (room_availability d))
      as [|row rest] eqn:E; [congruence|].
    assert (Hrow : In row (row :: rest)) by now left.
    rewrite <- E in Hrow. apply filter_In in Hrow. destruct Hrow as [Hin Hk].
    rewrite (Hall row Hin Hk). cbn [status_eqb negb].
    destruct (PatchSlotDisable.checkAllDisabledSql _ _ _) as [total alreadyDisabled].
    destruct (PatchSlotDisable.strictEquals total alreadyDisabled && negb (no_faults 3));
      cbn [fst snd room_availability bookings with_rooms with_availability];
      split; [reflexivity | split; reflexivity | reflexivity | split; reflexivity]. }
  destruct Eoff as [Hoff [Eav Ebk]].
  subst on. unfold PatchSlotEnable.handler. cbn [no_faults fst snd].
  cbn [room_availability bookings rooms with_rooms with_availability].
  split; [assumption|]. split; [reflexivity|]. split; [|split; [|split]].
  - rewrite Eav. intros r Hin Hk. unfold PatchSlotDisable.disableSql in Hin.
    apply in_update in Hin. destruct Hin as [r0 [_ ->]].
    destruct (of_slot roomId (clk_today clk) timeSlot r0) eqn:E; [reflexivity | congruence].
  - rewrite Eav. unfold PatchSlotEnable.enableSql, PatchSlotDisable.disableSql.
    apply update_undo.
    + intros r Hin Hk. split.
      * unfold PatchSlotEnable.is_disabled_slot.
        change (of_slot roomId (clk_today clk) timeSlot (set_status disabled r))
          with (of_slot roomId (clk_today clk) timeSlot r).
        rewrite Hk. reflexivity.
      * rewrite <- (Hall r Hin Hk) at 1. apply set_status_back.
    + intros r Hin Hk. unfold PatchSlotEnable.is_disabled_slot. rewrite Hk. reflexivity.
  - exact Ebk.
  - intros r. apply in_enableRoomSql.
Qed.

Lemma slot_disable_then_enable_restores_witness :
  PatchSlotDisable.handler no_faults morning "R1" "08:00-10:00" db_free
  = (db_one_disabled, Success) /\
  PatchSlotEnable.handler no_faults morning "R1" "08:00-10:00" db_one_disabled
  = (db_free, Success) /\
  room_availability
    (fst (PatchSlotEnable.handler no_faults morning "R1" "08:00-10:00"
            (fst (PatchSlotDisable.handler no_faults morning "R1" "08:00-10:00" db_free))))
  = room_availability db_free.
Proof.
  split; [reflexivity|]. split; [reflexivity|].
  apply (slot_disable_then_enable_restores morning "R1" "08:00-10:00" db_free).
  - discriminate.
  - intros r Hin _. cbn in Hin.
    destruct Hin as [<- | [<- | [<- | [<- | []]]]]; reflexivity.
Defined.

(** ** New rooms *)

Lemma insertSlots_serves (roomId date : string) (labels : list string) :
  forall k t slot, In slot labels ->
    exists r, In r (PostRooms.insertSlots no_faults k roomId date labels t) /\
              of_slot roomId date slot r = true.
Proof.
  induction labels as [|l rest IH]; intros k t slot Hin; [destruct Hin|].
  cbn [PostRooms.insertSlots]. unfold no_faults at 2. destruct Hin as [-> | Hin].
  - destruct (insert_slot_present slot roomId date t) as [r [Hr Hk]].
    exists r. split; [|exact Hk].
    destruct (insertSlots_adds no_faults roomId date rest (S k)
                (PostRooms.slotSql slot roomId date t)) as [added [-> _]].
    apply in_or_app. left. exact Hr.
  - apply IH. exact Hin.
Qed.

Lemma insertSlots_keeps_free (f : faults) (roomId date : string) (labels : list string)
      (k : nat) (t : list availability) (P : availability -> Prop) :
  (forall r, ra_status r = free -> ra_student_id r = None -> P r) ->
  Forall P t -> Forall P (PostRooms.insertSlots f k roomId date labels t).
Proof.
  intros HP Ht.
  destruct (insertSlots_created f roomId date labels k t) as [added [-> F]].
  apply Forall_app. split; [exact Ht|].
  eapply Forall_impl; [|exact F]. intros r [H1 [H2 _]]. now apply HP.
Qed.

(** A room just created can be booked at once: when every store call
    succeeds and no slot row carries the new identifier yet, then for
    today and for tomorrow every configured slot that has not ended is
    granted to a student without a booking on that day. *)
Theorem created_room_is_bookable
        (clk clk' : clock) (name category location description : option string)
        (studentId timeSlot : string) (d : db) :
  let roomId := ("room_" ++ JS.ofInt (clk_now clk))%string in
  let created := PostRooms.handler no_faults clk name category location description d in
  (forall r, In r (room_availability d) -> ra_room_id r <> roomId) ->
  clk_today clk' = clk_today clk \/ clk_today clk' = clk_tomorrow clk ->
  In timeSlot timeSlots ->
  isTimeSlotValid clk' timeSlot = true ->
  JS.truthy studentId = true ->
  PostBookings.checkSql studentId (clk_today clk') (bookings d) = [] ->
  snd created = RoomCreated roomId /\
  snd (PostBookings.handler no_faults clk' studentId roomId timeSlot (fst created))
  = BookingCreated ("book_" ++ JS.ofInt (clk_now clk')).
Proof.
  intros roomId created Hnew Hday Hslot Hvalid Hs Hnone.
  split; [reflexivity|].
  rewrite book_first; [reflexivity | exact Hs | reflexivity | | exact Hvalid | exact Hnone | ].
  - destruct Hslot as [<- | [<- | [<- | [<- | []]]]]; reflexivity.
  - subst created. unfold PostRooms.handler. unfold no_faults at 1.
    cbn [fst room_availability with_availability with_rooms].
    fold roomId.
    set (t1 := PostRooms.insertSlots no_faults 1 roomId (clk_today clk) timeSlots
                 (room_availability d)).
    set (t2 := PostRooms.insertSlots no_faults (1 + length timeSlots) roomId
                 (clk_tomorrow clk) timeSlots t1).
    pose (P := fun r : availability =>
                 ra_room_id r = roomId -> ra_status r = free /\ ra_student_id r = None).
    assert (F : Forall P t2).
    { apply insertSlots_keeps_free; [intros r H1 H2 _; now split|].
      apply insertSlots_keeps_free; [intros r H1 H2 _; now split|].
      apply Forall_forall. intros r Hin Hid. destruct (Hnew r Hin Hid). }
    assert (Hrow : exists r, In r t2 /\ of_slot roomId (clk_today clk') timeSlot r = true).
    { destruct Hday as [-> | ->].
      - destruct (insertSlots_serves roomId (clk_today clk) timeSlots 1
                    (room_availability d) timeSlot Hslot) as [r [Hr Hk]].
        exists r. split; [|exact Hk]. subst t2.
        destruct (insertSlots_adds no_faults roomId (clk_tomorrow clk) timeSlots
                    (1 + length timeSlots) t1) as [added [-> _]].
        apply in_or_app. left. exact Hr.
      - apply insertSlots_serves. exact Hslot. }
    destruct Hrow as [r [Hr Hk]].
    assert (Hin : In r (PostBookings.slotCheckSql roomId (clk_today clk') timeSlot t2)).
    { apply filter_In. split; [exact Hr|]. rewrite Hk.
      assert (Hid : ra_room_id r = roomId).
      { unfold of_slot, of_room_date in Hk.
        apply andb_prop in Hk. destruct Hk as [Hk _].
        apply andb_prop in Hk. destruct Hk as [Hk _].
        now apply String.eqb_eq in Hk. }
      rewrite Forall_forall in F. destruct (F r Hr Hid) as [H1 H2].
      unfold unbound. rewrite H1, H2. reflexivity. }
    intros E. rewrite E in Hin. destruct Hin.
Qed.

Lemma created_room_is_bookable_witness :
  snd (PostRooms.handler no_faults morning (Some "Lab") None None None db_free)
  = RoomCreated "room_1762473600000" /\
  snd (PostBookings.handler no_faults morning "S1" "room_1762473600000" "10:00-12:00"
         (fst (PostRooms.handler no_faults morning (Some "Lab") None None None db_free)))
  = BookingCreated "book_1762473600000".
Proof.
  apply (created_room_is_bookable morning morning (Some "Lab") None None None
           "S1" "10:00-12:00" db_free).
  - intros r Hin. cbn in Hin.
    destruct Hin as [<- | [<- | [<- | [<- | []]]]]; discriminate.
  - left. reflexivity.
  - right. left. reflexivity.
  - reflexivity.
  - reflexivity.
  - reflexivity.
Defined.

Lemma single_statement_all_or_nothing_witness :
  no_faults 0%nat = false /\
  GetTimeSlotsSingle.handler no_faults morning "R1" db_free
  = (db_free, Slots (GetTimeSlotsSingle.sql "R1" "2025-11-07" (room_availability db_free))) /\
  GetTimeSlotsSingle.handler (fail_at 1) morning "R1" db_no_slots
  = (db_no_slots, Error 500 "Failed to create time slots").
Proof.
  split; [reflexivity|]. split.
  - apply (proj1 (single_statement_all_or_nothing no_faults morning "R1" db_free eq_refl)).
    discriminate.
  - apply (proj1 (proj2 (single_statement_all_or_nothing (fail_at 1) morning "R1"
                           db_no_slots eq_refl)));
      reflexivity.
Defined.
